(** * lume-services: the metadata store service and the local run backend

    A shallow embedding of

    - [lume_services/services/models/service.py] ([ModelDBService]) and
    - [lume_services/scheduling/prefect/backends/local.py] ([LocalBackend]),

    together with the properties their specification states about them.

    Python objects are modelled as follows.  Dynamically typed scalars are
    the type [value]; keyword arguments and dependency descriptors (Python
    dicts, which keep insertion order) are association lists; ORM rows are
    records; SQLAlchemy statements are plain data handed to the database
    driver.  The service methods run in a state-and-exception monad over a
    [world] that holds the driver's store, the list of calls the driver has
    received and the records the module logger has emitted. *)

From Stdlib Require Import List String Ascii ZArith Bool Lia Sorted.
Import ListNotations.
Open Scope string_scope.
Open Scope list_scope.

Set Implicit Arguments.

(** ** Python values, dictionaries *)

Inductive value : Type :=
| VNone
| VInt (z : Z)
| VStr (s : string)
| VBool (b : bool).

Definition value_eqb (a b : value) : bool :=
  match a, b with
  | VNone, VNone => true
  | VInt x, VInt y => Z.eqb x y
  | VStr x, VStr y => String.eqb x y
  | VBool x, VBool y => Bool.eqb x y
  | _, _ => false
  end.

(** A Python [dict] with string keys: [**kwargs] and the dependency
    descriptors. *)
Definition dict := list (string * value).
Definition kwargs := dict.

Fixpoint dict_find (d : dict) (k : string) : option value :=
  match d with
  | [] => None
  | (k', v) :: d' => if String.eqb k' k then Some v else dict_find d' k
  end.

(** [d.get(k)]: [None] when the key is absent. *)
Definition dict_get (d : dict) (k : string) : value :=
  match dict_find d k with
  | Some v => v
  | None => VNone
  end.

Definition keys (d : dict) : list string := map fst d.

Definition mem_string (k : string) (l : list string) : bool :=
  existsb (String.eqb k) l.

(** ** Schema *)

Inductive entity : Type :=
| Model
| Deployment
| Project
| Flow
| FlowOfFlows
| DeploymentDependency
| DependencyType.

(** The ORM classes of [lume_services.services.models.db.schema] are not
    among the sources.  Their fields are the key attributes of the spec's
    data model, under the attribute names [service.py] uses ([model_id],
    [deployment_id], [project_name], [flow_id], [deploy_date],
    [DependencyType.id], [DependencyType.type], [FlowOfFlows.flow],
    [DeploymentDependency.dependency_type]). *)

(** Modelled from the spec: the class [Model], a simulation model
    definition with an automatic identifier. *)
Record ModelRow : Type := {
  model_id : Z;
  author : value;
  laboratory : value;
  facility : value;
  beampath : value;
  description : value }.

(** Modelled from the spec: the class [Deployment], which belongs to a
    Model. *)
Record DeploymentRow : Type := {
  deployment_id : Z;
  d_model_id : Z;
  version : value;
  source : value;
  sha256 : value;
  image : value;
  is_live : value;
  asset_dir : value;
  deploy_date : Z }.

(** Modelled from the spec: the class [Project], keyed by its name. *)
Record ProjectRow : Type := {
  project_name : value;
  p_description : value }.

(** Modelled from the spec: the class [Flow], which belongs to a
    Deployment and a Project. *)
Record FlowRow : Type := {
  flow_id : value;
  f_deployment_id : Z;
  flow_name : value;
  f_project_name : value }.

(** Modelled from the spec: the class [FlowOfFlows], with the composite
    id, the reference to a member flow, and the relationship attribute
    [flow] that holds the member [Flow] object. *)
Record FlowOfFlowsRow : Type := {
  fof_id : value;
  fof_flow_id : value;
  flow : FlowRow }.

(** Modelled from the spec: the class [DependencyType], a kind of
    dependency. *)
Record DependencyTypeRow : Type := {
  dt_id : Z;
  dt_type : value }.

(** Modelled from the spec: the class [DeploymentDependency], with the
    relationship attribute [dependency_type]. *)
Record DeploymentDependencyRow : Type := {
  dd_id : Z;
  dd_deployment_id : Z;
  dd_name : value;
  dd_source : value;
  dd_local_source : value;
  dd_version : value;
  dependency_type_id : Z;
  dependency_type : DependencyTypeRow }.

Definition row_of (E : entity) : Type :=
  match E with
  | Model => ModelRow
  | Deployment => DeploymentRow
  | Project => ProjectRow
  | Flow => FlowRow
  | FlowOfFlows => FlowOfFlowsRow
  | DeploymentDependency => DeploymentDependencyRow
  | DependencyType => DependencyTypeRow
  end.

(** Modelled from the spec: the declared columns of each class of the
    schema module. *)
Definition columns (E : entity) : list string :=
  match E with
  | Model =>
      ["model_id"; "author"; "laboratory"; "facility"; "beampath"; "description"]
  | Deployment =>
      ["deployment_id"; "model_id"; "version"; "source"; "sha256"; "image";
       "is_live"; "asset_dir"; "deploy_date"]
  | Project => ["project_name"; "description"]
  | Flow => ["flow_id"; "deployment_id"; "flow_name"; "project_name"]
  | FlowOfFlows => ["id"; "flow_id"]
  | DeploymentDependency =>
      ["id"; "deployment_id"; "name"; "source"; "local_source"; "version";
       "dependency_type_id"]
  | DependencyType => ["id"; "type"]
  end.

(** Modelled from the spec: the value a row holds in a declared column
    ([None] for a name that is no column). *)
Definition column_value (E : entity) : row_of E -> string -> option value :=
  match E with
  | Model => fun r c =>
      if c =? "model_id" then Some (VInt (model_id r))
      else if c =? "author" then Some (author r)
      else if c =? "laboratory" then Some (laboratory r)
      else if c =? "facility" then Some (facility r)
      else if c =? "beampath" then Some (beampath r)
      else if c =? "description" then Some (description r)
      else None
  | Deployment => fun r c =>
      if c =? "deployment_id" then Some (VInt (deployment_id r))
      else if c =? "model_id" then Some (VInt (d_model_id r))
      else if c =? "version" then Some (version r)
      else if c =? "source" then Some (source r)
      else if c =? "sha256" then Some (sha256 r)
      else if c =? "image" then Some (image r)
      else if c =? "is_live" then Some (is_live r)
      else if c =? "asset_dir" then Some (asset_dir r)
      else if c =? "deploy_date" then Some (VInt (deploy_date r))
      else None
  | Project => fun r c =>
      if c =? "project_name" then Some (project_name r)
      else if c =? "description" then Some (p_description r)
      else None
  | Flow => fun r c =>
      if c =? "flow_id" then Some (flow_id r)
      else if c =? "deployment_id" then Some (VInt (f_deployment_id r))
      else if c =? "flow_name" then Some (flow_name r)
      else if c =? "project_name" then Some (f_project_name r)
      else None
  | FlowOfFlows => fun r c =>
      if c =? "id" then Some (fof_id r)
      else if c =? "flow_id" then Some (fof_flow_id r)
      else None
  | DeploymentDependency => fun r c =>
      if c =? "id" then Some (VInt (dd_id r))
      else if c =? "deployment_id" then Some (VInt (dd_deployment_id r))
      else if c =? "name" then Some (dd_name r)
      else if c =? "source" then Some (dd_source r)
      else if c =? "local_source" then Some (dd_local_source r)
      else if c =? "version" then Some (dd_version r)
      else if c =? "dependency_type_id" then Some (VInt (dependency_type_id r))
      else None
  | DependencyType => fun r c =>
      if c =? "id" then Some (VInt (dt_id r))
      else if c =? "type" then Some (dt_type r)
      else None
  end.

(** ** SQLAlchemy statements *)

Inductive ordering : Type :=
| desc (column : string).

Inductive loader_option : Type :=
| joinedload (relationship : string).

(** A select statement on [E] with its [filter_by] criteria, [order_by] clause
    and loader [options], as data. *)
Record query (E : entity) : Type := {
  q_filter_by : kwargs;
  q_order_by : option ordering;
  q_options : list loader_option }.

Definition select (E : entity) : query E :=
  {| q_filter_by := []; q_order_by := None; q_options := [] |}.

Definition filter_by {E} (q : query E) (kw : kwargs) : query E :=
  {| q_filter_by := q_filter_by q ++ kw;
     q_order_by := q_order_by q;
     q_options := q_options q |}.

Definition order_by {E} (q : query E) (o : ordering) : query E :=
  {| q_filter_by := q_filter_by q;
     q_order_by := Some o;
     q_options := q_options q |}.

Definition options {E} (q : query E) (l : loader_option) : query E :=
  {| q_filter_by := q_filter_by q;
     q_order_by := q_order_by q;
     q_options := q_options q ++ [l] |}.

(** A select of one column of [E] with [filter_by] criteria, [as_scalar]: a
    scalar sub-query. *)
Record scalar_select : Type := {
  s_entity : entity;
  s_column : string;
  s_filter_by : kwargs }.

(** A value bound in an insert: a literal or an embedded scalar sub-query. *)
Inductive bound : Type :=
| Lit (v : value)
| Scalar (s : scalar_select).

(** An insert statement on [E] with its [values] bindings. *)
Record insert_stmt : Type := {
  i_entity : entity;
  i_values : list (string * bound) }.

Definition insert (E : entity) (bindings : list (string * bound)) : insert_stmt :=
  {| i_entity := E; i_values := bindings |}.

(** ** Errors, log records, driver calls *)

Inductive error : Type :=
| ValueError (E : entity) (unknown : list string)
| TypeError (msg : string)
| KeyError (key : string)
| ModelNotFoundError (E : entity) (q : query E)
| DeploymentNotFoundError (E : entity) (q : query E)
| ProjectNotFoundError (E : entity) (q : query E)
| FlowNotFoundError (E : entity) (q : query E)
| FlowOfFlowsNotFoundError (E : entity) (q : query E)
| DriverError (msg : string).

Inductive log_record : Type :=
| Warning (msg : string) (arg1 : string) (arg2 : value).

(** What a spy on the driver would record. *)
Inductive call : Type :=
| CallSelect (E : entity) (q : query E)
| CallInsert (s : insert_stmt)
| CallInsertMany (ss : list insert_stmt).

Definition is_select (c : call) : bool :=
  match c with
  | CallSelect _ => true
  | _ => false
  end.

(** ** The database driver

    [ModelDB] is injected into the service; its implementation is not among
    the sources, so the service is written against this interface.  [select]
    reads the store; [insert] and [insert_many] may change it and return the
    inserted primary keys; each may fail with a driver error. *)
Class ModelDB (store : Type) : Type := {
  db_select : forall E, query E -> store -> error + list (row_of E);
  db_insert : insert_stmt -> store -> store * (error + list value);
  db_insert_many : list insert_stmt -> store -> store * (error + list value) }.

(** ** The world the service runs in, and its monad *)

Record world (store : Type) : Type := {
  w_store : store;
  w_calls : list call;
  w_log : list log_record }.

(** A computation may change the world and either raises or returns. *)
Definition M (store A : Type) : Type :=
  world store -> world store * (error + A).

Definition ret {store A} (a : A) : M store A :=
  fun w => (w, inr a).

Definition raise {store A} (e : error) : M store A :=
  fun w => (w, inl e).

Definition bind {store A B} (m : M store A) (k : A -> M store B) : M store B :=
  fun w =>
    match m w with
    | (w', inl e) => (w', inl e)
    | (w', inr a) => k a w'
    end.

Declare Scope service_scope.
Delimit Scope service_scope with service.
Notation "x <- m ;; k" := (bind m (fun x => k))
  (at level 100, m at next level, right associativity) : service_scope.
Notation "m ;; k" := (bind m (fun _ => k))
  (at level 100, right associativity) : service_scope.
Open Scope service_scope.

(** [logger.warning(msg, arg1, arg2)]. *)
Definition logger_warning {store} (msg arg1 : string) (arg2 : value)
  : M store unit :=
  fun w =>
    ({| w_store := w_store w;
        w_calls := w_calls w;
        w_log := w_log w ++ [Warning msg arg1 arg2] |}, inr tt).

(** [d[k]]: raises [KeyError] when the key is absent. *)
Definition dict_item {store} (d : dict) (k : string) : M store value :=
  match dict_find d k with
  | Some v => ret v
  | None => raise (KeyError k)
  end.

(** Python's binding of the keyword arguments of a call to the parameters of
    a [def] without defaults: a keyword that names no parameter, or a
    parameter left without a value, is a [TypeError]. *)
Definition check_keywords {store} (params : list string) (kw : kwargs)
  : M store unit :=
  match filter (fun k => negb (mem_string k params)) (keys kw) with
  | [] => ret tt
  | k :: _ => raise (TypeError ("unexpected keyword argument " ++ k)%string)
  end.

Definition param {store} (kw : kwargs) (p : string) : M store value :=
  match dict_find kw p with
  | Some v => ret v
  | None => raise (TypeError ("missing required argument " ++ p)%string)
  end.

Section Service.

Context {store : Type} {model_db : ModelDB store}.

(** *** [self._model_db]: calls on the injected driver *)

Definition model_db_select {E} (q : query E) : M store (list (row_of E)) :=
  fun w =>
    ({| w_store := w_store w;
        w_calls := w_calls w ++ [CallSelect q];
        w_log := w_log w |},
     db_select q (w_store w)).

Definition model_db_insert (stmt : insert_stmt) : M store (list value) :=
  fun w =>
    let (st, r) := db_insert stmt (w_store w) in
    ({| w_store := st;
        w_calls := w_calls w ++ [CallInsert stmt];
        w_log := w_log w |}, r).

Definition model_db_insert_many (stmts : list insert_stmt) : M store (list value) :=
  fun w =>
    let (st, r) := db_insert_many stmts (w_store w) in
    ({| w_store := st;
        w_calls := w_calls w ++ [CallInsertMany stmts];
        w_log := w_log w |}, r).

(** *** [validate_kwargs_exist] *)

(** Modelled from the spec: the decorator
    [lume_services.services.models.utils.validate_kwargs_exist], which is
    not among the sources.  Every operation it wraps first checks that each
    supplied name is a declared column of the target record type; an
    unrecognized name fails validation before the wrapped function runs. *)
Definition validate_kwargs_exist (E : entity) {A} (func : kwargs -> M store A)
  : kwargs -> M store A :=
  fun kw =>
    match filter (fun k => negb (mem_string k (columns E))) (keys kw) with
    | [] => func kw
    | unknown => raise (ValueError E unknown)
    end.

(** *** The store operations *)

(** The body of [store_model], whose parameters are [author], [laboratory],
    [facility], [beampath] and [description]. *)
Definition store_model_def
  (author laboratory facility beampath description : value) : M store value :=
  let insert_stmt :=
    insert Model
      [("author", Lit author);
       ("laboratory", Lit laboratory);
       ("facility", Lit facility);
       ("beampath", Lit beampath);
       ("description", Lit description)] in
  result <- model_db_insert insert_stmt ;;
  match result with
  | r0 :: _ => ret r0
  | [] => ret VNone
  end.

(** [store_model] as the module exports it: the decorated function, called
    with keyword arguments. *)
Definition store_model : kwargs -> M store value :=
  validate_kwargs_exist Model (fun kw =>
    check_keywords
      ["author"; "laboratory"; "facility"; "beampath"; "description"] kw ;;
    author <- param kw "author" ;;
    laboratory <- param kw "laboratory" ;;
    facility <- param kw "facility" ;;
    beampath <- param kw "beampath" ;;
    description <- param kw "description" ;;
    store_model_def author laboratory facility beampath description).

(** [is_live] defaults to [False] and [asset_dir] to [None] at the call. *)
Definition store_deployment
  (model_id version source sha256 image is_live asset_dir : value) : M store value :=
  let insert_stmt :=
    insert Deployment
      [("model_id", Lit model_id);
       ("version", Lit version);
       ("source", Lit source);
       ("sha256", Lit sha256);
       ("image", Lit image);
       ("is_live", Lit is_live);
       ("asset_dir", Lit asset_dir)] in
  result <- model_db_insert insert_stmt ;;
  match result with
  | r0 :: _ => ret r0
  | [] => ret VNone
  end.

Definition store_project (project_name description : value) : M store value :=
  let insert_stmt :=
    insert Project
      [("project_name", Lit project_name);
       ("description", Lit description)] in
  result <- model_db_insert insert_stmt ;;
  match result with
  | r0 :: _ => ret r0
  | [] => ret VNone
  end.

Definition store_flow (deployment_id flow_id flow_name project_name : value)
  : M store value :=
  let insert_stmt :=
    insert Flow
      [("flow_id", Lit flow_id);
       ("deployment_id", Lit deployment_id);
       ("flow_name", Lit flow_name);
       ("project_name", Lit project_name)] in
  results <- model_db_insert insert_stmt ;;
  match results with
  | r0 :: _ => ret r0
  | [] => ret VNone
  end.

(** *** The get operations *)

Definition get_model : kwargs -> M store ModelRow :=
  validate_kwargs_exist Model (fun kwargs =>
    let query := filter_by (select Model) kwargs in
    result <- model_db_select query ;;
    match result with
    | r0 :: _ =>
        (if (1 <? List.length result)%nat
         then logger_warning
                ("Multiple models returned from query. get_model is returning the "
                 ++ "                        first result with %s %s")%string
                "model_id" (VInt (model_id r0))
         else ret tt) ;;
        ret r0
    | [] => raise (ModelNotFoundError query)
    end).

Definition get_deployment : kwargs -> M store DeploymentRow :=
  validate_kwargs_exist Deployment (fun kwargs =>
    let query := filter_by (select Deployment) kwargs in
    result <- model_db_select query ;;
    match result with
    | r0 :: _ =>
        (if (1 <? List.length result)%nat
         then logger_warning
                ("Multiple deployments returned from query. get_deployment is "
                 ++ "                        returning the first result with %s %s")%string
                "deployment_id" (VInt (deployment_id r0))
         else ret tt) ;;
        ret r0
    | [] => raise (DeploymentNotFoundError query)
    end).

Definition get_latest_deployment : kwargs -> M store DeploymentRow :=
  validate_kwargs_exist Deployment (fun kwargs =>
    let query :=
      order_by (filter_by (select Deployment) kwargs) (desc "deploy_date") in
    result <- model_db_select query ;;
    match result with
    | r0 :: _ => ret r0
    | [] => raise (DeploymentNotFoundError query)
    end).

Definition get_project : kwargs -> M store ProjectRow :=
  validate_kwargs_exist Project (fun kwargs =>
    let query := filter_by (select Project) kwargs in
    result <- model_db_select query ;;
    match result with
    | r0 :: _ =>
        (if (1 <? List.length result)%nat
         then logger_warning
                ("Multiple projects returned from query. get_project is returning "
                 ++ "                        the first result with %s %s")%string
                "name" (project_name r0)
         else ret tt) ;;
        ret r0
    | [] => raise (ProjectNotFoundError query)
    end).

Definition get_flow : kwargs -> M store FlowRow :=
  validate_kwargs_exist Flow (fun kwargs =>
    let query := filter_by (select Flow) kwargs in
    result <- model_db_select query ;;
    match result with
    | r0 :: _ =>
        (if (1 <? List.length result)%nat
         then logger_warning
                ("Multiple flows returned from query. get_flow is returning the "
                 ++ "                        first result with %s %s")%string
                "flow_id" (flow_id r0)
         else ret tt) ;;
        ret r0
    | [] => raise (FlowNotFoundError query)
    end).

Definition get_flow_of_flows : kwargs -> M store (list FlowRow) :=
  validate_kwargs_exist FlowOfFlows (fun kwargs =>
    let query := filter_by (select FlowOfFlows) kwargs in
    result <- model_db_select query ;;
    match result with
    | _ :: _ => ret (map flow result)
    | [] => raise (FlowOfFlowsNotFoundError query)
    end).

Definition get_dependencies (deployment_id : value)
  : M store (list DeploymentDependencyRow) :=
  let query :=
    options
      (filter_by (select DeploymentDependency)
         [("deployment_id", deployment_id)])
      (joinedload "dependency_type") in
  deps <- model_db_select query ;;
  match deps with
  | _ :: _ => ret deps
  | [] => raise (DeploymentNotFoundError query)
  end.

(** One insert statement of [store_dependencies]: the loop body. *)
Definition dependency_insert (deployment_id : value) (dep : dict)
  : M store insert_stmt :=
  dep_type <- dict_item dep "type" ;;
  let type_stmt :=
    Scalar {| s_entity := DependencyType;
              s_column := "id";
              s_filter_by := [("type", dep_type)] |} in
  name <- dict_item dep "name" ;;
  source <- dict_item dep "source" ;;
  let local_source := dict_get dep "local_source" in
  version <- dict_item dep "version" ;;
  ret (insert DeploymentDependency
         [("deployment_id", Lit deployment_id);
          ("name", Lit name);
          ("source", Lit source);
          ("local_source", Lit local_source);
          ("version", Lit version);
          ("dependency_type_id", type_stmt)]).

(** The loop over [dependencies], appending to [stmts]. *)
Fixpoint dependency_inserts (deployment_id : value) (dependencies : list dict)
  (stmts : list insert_stmt) : M store (list insert_stmt) :=
  match dependencies with
  | [] => ret stmts
  | dep :: rest =>
      insert_stmt <- dependency_insert deployment_id dep ;;
      dependency_inserts deployment_id rest (stmts ++ [insert_stmt])
  end.

Definition store_dependencies (dependencies : list dict) (deployment_id : value)
  : M store (option (list value)) :=
  stmts <- dependency_inserts deployment_id dependencies [] ;;
  result <- model_db_insert_many stmts ;;
  match result with
  | _ :: _ => ret (Some result)
  | [] => ret None
  end.

End Service.

(** ** Paths *)

(** [os.path] on a POSIX system, as far as the run descriptor uses it:
    [abspath], with the [isabs], [join] and [normpath] it is made of.  The
    working directory of the process is the parameter [cwd]. *)
Module posixpath.

Definition sep : Ascii.ascii := "/"%char.

(** [path.split("/")], the component read so far in [cur]. *)
Fixpoint split_from (cur s : string) : list string :=
  match s with
  | EmptyString => [cur]
  | String c s' =>
      if Ascii.eqb c sep then cur :: split_from "" s'
      else split_from (cur ++ String c "")%string s'
  end.

Definition split (s : string) : list string := split_from "" s.

Fixpoint endswith_sep (s : string) : bool :=
  match s with
  | EmptyString => false
  | String c EmptyString => Ascii.eqb c sep
  | String _ s' => endswith_sep s'
  end.

Definition isabs (path : string) : bool := String.prefix "/" path.

(** [join(a, p)] for two components. *)
Definition join (a p : string) : string :=
  if isabs p then p
  else if (a =? "") || endswith_sep a then (a ++ p)%string
  else (a ++ "/" ++ p)%string.

(** One or two initial slashes are kept, three or more are one. *)
Definition initial_slashes (path : string) : nat :=
  if String.prefix "/" path then
    if String.prefix "//" path && negb (String.prefix "///" path)
    then 2 else 1
  else 0.

(** The body of the loop over the components; [new_comps] is held with
    its last component first. *)
Definition norm_step (initial : nat) (new_comps : list string) (comp : string)
  : list string :=
  if (comp =? "") || (comp =? ".") then new_comps
  else if negb (comp =? "..")
          || (Nat.eqb initial 0
              && match new_comps with [] => true | _ :: _ => false end)
          || match new_comps with
             | last :: _ => last =? ".."
             | [] => false
             end
  then comp :: new_comps
  else match new_comps with
       | _ :: popped => popped
       | [] => []
       end.

Fixpoint slashes (n : nat) : string :=
  match n with
  | O => ""
  | S n' => String sep (slashes n')
  end.

Definition normpath (path : string) : string :=
  if path =? "" then "."
  else
    let initial := initial_slashes path in
    let comps := rev (fold_left (norm_step initial) (split path) []) in
    let path := (slashes initial ++ String.concat "/" comps)%string in
    if path =? "" then "." else path.

Definition abspath (cwd path : string) : string :=
  normpath (if isabs path then path else join cwd path).

End posixpath.

(** ** The local run backend *)

Module Local.

(** [LocalRunConfig]: a pydantic model with fields [env] and [working_dir]. *)
Record LocalRunConfig : Type := {
  env : list (string * string);
  working_dir : option string }.

(** The run descriptor of the orchestration engine. *)
Record LocalRun : Type := {
  run_env : list (string * string);
  run_working_dir : option string }.

(** The constructor of the descriptor, called with keyword arguments [env]
    and [working_dir]: the engine keeps the environment as given and stores
    the absolute path of a working directory that is not [None]. *)
Definition new_LocalRun (cwd : string) (env : list (string * string))
  (working_dir : option string) : LocalRun :=
  {| run_env := env;
     run_working_dir := option_map (posixpath.abspath cwd) working_dir |}.

(** A [LocalBackend] object.  The class body declares no attribute and its
    base class [Backend] is not among the sources, so the attributes the
    object carries are a parameter of the model. *)
Record LocalBackend : Type := {
  attributes : list (string * option string) }.

(** The file service the backend consults ([FileService.dir_exists]). *)
Record FileService : Type := {
  dir_exists : string -> option string -> bool }.

Inductive backend_error : Type :=
| AttributeError (name : string)
| FileNotFoundError (directory : option string).

Fixpoint lookup_attribute (l : list (string * option string)) (name : string)
  : option (option string) :=
  match l with
  | [] => None
  | (n, v) :: l' => if String.eqb n name then Some v else lookup_attribute l' name
  end.

(** [self.name]. *)
Definition getattr (self : LocalBackend) (name : string)
  : backend_error + option string :=
  match lookup_attribute (attributes self) name with
  | Some v => inr v
  | None => inl (AttributeError name)
  end.

(** [cwd] is the working directory of the process that calls. *)
Definition get_run (cwd : string) (self : LocalBackend)
  (run_config : LocalRunConfig) (file_service : FileService)
  : backend_error + LocalRun :=
  match getattr self "working_dir" with
  | inl e => inl e
  | inr self_working_dir =>
      if negb (dir_exists file_service "local" self_working_dir)
      then inl (FileNotFoundError self_working_dir)
      else inr (new_LocalRun cwd (env run_config) (working_dir run_config))
  end.

End Local.

(** ** A reference driver *)

(** Modelled from the spec: the Database Driver
    ([lume_services.services.models.db]) and the relational engine behind
    it, neither of which is among the sources.  The driver executes raw
    insert and select statements and returns raw result rows; the store is
    append-only; every Deployment references an existing Model, every Flow
    an existing Deployment and Project, every DeploymentDependency an
    existing DependencyType and Deployment; project names are unique; a
    batched insert is issued whole or fails whole. *)
Module Reference.

(** Modelled from the spec: the seven tables of the relational schema. *)
Record tables : Type := {
  models : list ModelRow;
  deployments : list DeploymentRow;
  projects : list ProjectRow;
  flows : list FlowRow;
  flow_of_flows : list FlowOfFlowsRow;
  dependency_types : list DependencyTypeRow;
  deployment_dependencies : list DeploymentDependencyRow;
  (** the engine's clock, the default of [deploy_date] *)
  now : Z }.

Definition table (E : entity) : tables -> list (row_of E) :=
  match E with
  | Model => models
  | Deployment => deployments
  | Project => projects
  | Flow => flows
  | FlowOfFlows => flow_of_flows
  | DeploymentDependency => deployment_dependencies
  | DependencyType => dependency_types
  end.

(** *** Select *)

(** Modelled from the spec: a row satisfies equality criteria when each
    named column holds the given value. *)
Definition matches {E} (kw : kwargs) (r : row_of E) : bool :=
  forallb
    (fun kv : string * value =>
       match column_value E r (fst kv) with
       | Some v => value_eqb v (snd kv)
       | None => false
       end) kw.

(** The order of column values: [None] first, then numbers, strings and
    booleans. *)
Definition value_ltb (a b : value) : bool :=
  match a, b with
  | VNone, VNone => false
  | VNone, _ => true
  | VInt x, VInt y => Z.ltb x y
  | VInt _, (VStr _ | VBool _) => true
  | VStr x, VStr y => String.ltb x y
  | VStr _, VBool _ => true
  | VBool x, VBool y => negb x && y
  | _, _ => false
  end.

Definition sort_key {E} (column : string) (r : row_of E) : value :=
  match column_value E r column with
  | Some v => v
  | None => VNone
  end.

(** Stable insertion sort, greatest key first. *)
Fixpoint insert_desc {A} (key : A -> value) (x : A) (l : list A) : list A :=
  match l with
  | [] => [x]
  | y :: l' =>
      if value_ltb (key x) (key y)
      then y :: insert_desc key x l'
      else x :: y :: l'
  end.

Definition sort_desc {A} (key : A -> value) (l : list A) : list A :=
  fold_right (insert_desc key) [] l.

(** Modelled from the spec: the rows a select statement returns, the
    matching rows in table order, or ordered as the statement asks. *)
Definition run_query {E} (q : query E) (st : tables) : list (row_of E) :=
  let rows := filter (matches (q_filter_by q)) (table E st) in
  match q_order_by q with
  | Some (desc column) => sort_desc (sort_key column) rows
  | None => rows
  end.

Definition run_scalar (s : scalar_select) (st : tables) : error + value :=
  match filter (matches (s_filter_by s)) (table (s_entity s) st) with
  | [] => inr VNone
  | [r] =>
      match column_value (s_entity s) r (s_column s) with
      | Some v => inr v
      | None => inl (DriverError "unknown column")
      end
  | _ :: _ :: _ => inl (DriverError "subquery returns more than one row")
  end.

(** *** Insert *)

Definition eval_bound (st : tables) (b : bound) : error + value :=
  match b with
  | Lit v => inr v
  | Scalar s => run_scalar s st
  end.

Fixpoint eval_bindings (st : tables) (l : list (string * bound))
  : error + dict :=
  match l with
  | [] => inr []
  | (k, b) :: l' =>
      match eval_bound st b with
      | inl e => inl e
      | inr v =>
          match eval_bindings st l' with
          | inl e => inl e
          | inr d => inr ((k, v) :: d)
          end
      end
  end.

Definition next_id (ids : list Z) : Z :=
  (1 + fold_right Z.max 0 ids)%Z.

Definition has_model (st : tables) (id : Z) : bool :=
  existsb (fun r => Z.eqb (model_id r) id) (models st).

Definition has_deployment (st : tables) (id : Z) : bool :=
  existsb (fun r => Z.eqb (deployment_id r) id) (deployments st).

Definition has_project (st : tables) (name : value) : bool :=
  existsb (fun r => value_eqb (project_name r) name) (projects st).

Definition find_flow (st : tables) (id : value) : option FlowRow :=
  find (fun r => value_eqb (flow_id r) id) (flows st).

Definition find_dependency_type (st : tables) (id : Z)
  : option DependencyTypeRow :=
  find (fun r => Z.eqb (dt_id r) id) (dependency_types st).

Definition integrity : error := DriverError "integrity error".

(** Modelled from the spec: one row insert, giving the new store and the
    inserted primary key, or failing on a broken reference or a duplicate
    project name. *)
Definition insert_row (E : entity) (d : dict) (st : tables)
  : error + tables * value :=
  match E with
  | Model =>
      let id := next_id (map model_id (models st)) in
      let r := {| model_id := id;
                  author := dict_get d "author";
                  laboratory := dict_get d "laboratory";
                  facility := dict_get d "facility";
                  beampath := dict_get d "beampath";
                  description := dict_get d "description" |} in
      inr ({| models := models st ++ [r];
              deployments := deployments st;
              projects := projects st;
              flows := flows st;
              flow_of_flows := flow_of_flows st;
              dependency_types := dependency_types st;
              deployment_dependencies := deployment_dependencies st;
              now := now st |}, VInt id)
  | Deployment =>
      match dict_get d "model_id" with
      | VInt m =>
          if has_model st m then
            let id := next_id (map deployment_id (deployments st)) in
            let r := {| deployment_id := id;
                        d_model_id := m;
                        version := dict_get d "version";
                        source := dict_get d "source";
                        sha256 := dict_get d "sha256";
                        image := dict_get d "image";
                        is_live := dict_get d "is_live";
                        asset_dir := dict_get d "asset_dir";
                        deploy_date := now st |} in
            inr ({| models := models st;
                    deployments := deployments st ++ [r];
                    projects := projects st;
                    flows := flows st;
                    flow_of_flows := flow_of_flows st;
                    dependency_types := dependency_types st;
                    deployment_dependencies := deployment_dependencies st;
                    now := now st |}, VInt id)
          else inl integrity
      | _ => inl integrity
      end
  | Project =>
      let name := dict_get d "project_name" in
      if has_project st name then inl integrity
      else
        let r := {| project_name := name;
                    p_description := dict_get d "description" |} in
        inr ({| models := models st;
                deployments := deployments st;
                projects := projects st ++ [r];
                flows := flows st;
                flow_of_flows := flow_of_flows st;
                dependency_types := dependency_types st;
                deployment_dependencies := deployment_dependencies st;
                now := now st |}, name)
  | Flow =>
      match dict_get d "deployment_id" with
      | VInt dep =>
          if has_deployment st dep && has_project st (dict_get d "project_name")
          then
            let r := {| flow_id := dict_get d "flow_id";
                        f_deployment_id := dep;
                        flow_name := dict_get d "flow_name";
                        f_project_name := dict_get d "project_name" |} in
            inr ({| models := models st;
                    deployments := deployments st;
                    projects := projects st;
                    flows := flows st ++ [r];
                    flow_of_flows := flow_of_flows st;
                    dependency_types := dependency_types st;
                    deployment_dependencies := deployment_dependencies st;
                    now := now st |}, dict_get d "flow_id")
          else inl integrity
      | _ => inl integrity
      end
  | FlowOfFlows =>
      match find_flow st (dict_get d "flow_id") with
      | Some f =>
          let r := {| fof_id := dict_get d "id";
                      fof_flow_id := dict_get d "flow_id";
                      flow := f |} in
          inr ({| models := models st;
                  deployments := deployments st;
                  projects := projects st;
                  flows := flows st;
                  flow_of_flows := flow_of_flows st ++ [r];
                  dependency_types := dependency_types st;
                  deployment_dependencies := deployment_dependencies st;
                  now := now st |}, dict_get d "id")
      | None => inl integrity
      end
  | DeploymentDependency =>
      match dict_get d "deployment_id", dict_get d "dependency_type_id" with
      | VInt dep, VInt ty =>
          match has_deployment st dep, find_dependency_type st ty with
          | true, Some t =>
              let id := next_id (map dd_id (deployment_dependencies st)) in
              let r := {| dd_id := id;
                          dd_deployment_id := dep;
                          dd_name := dict_get d "name";
                          dd_source := dict_get d "source";
                          dd_local_source := dict_get d "local_source";
                          dd_version := dict_get d "version";
                          dependency_type_id := ty;
                          dependency_type := t |} in
              inr ({| models := models st;
                      deployments := deployments st;
                      projects := projects st;
                      flows := flows st;
                      flow_of_flows := flow_of_flows st;
                      dependency_types := dependency_types st;
                      deployment_dependencies :=
                        deployment_dependencies st ++ [r];
                      now := now st |}, VInt id)
          | _, _ => inl integrity
          end
      | _, _ => inl integrity
      end
  | DependencyType =>
      let id := next_id (map dt_id (dependency_types st)) in
      let r := {| dt_id := id; dt_type := dict_get d "type" |} in
      inr ({| models := models st;
              deployments := deployments st;
              projects := projects st;
              flows := flows st;
              flow_of_flows := flow_of_flows st;
              dependency_types := dependency_types st ++ [r];
              deployment_dependencies := deployment_dependencies st;
              now := now st |}, VInt id)
  end.

(** Modelled from the spec: the execution of one insert statement; a
    statement that binds a name which is no column is refused. *)
Definition execute (stmt : insert_stmt) (st : tables) : error + tables * value :=
  if forallb (fun k => mem_string k (columns (i_entity stmt)))
       (map fst (i_values stmt))
  then
    match eval_bindings st (i_values stmt) with
    | inl e => inl e
    | inr d => insert_row (i_entity stmt) d st
    end
  else inl (DriverError "unconsumed column names").

Fixpoint execute_all (stmts : list insert_stmt) (st : tables)
  : error + tables * list value :=
  match stmts with
  | [] => inr (st, [])
  | stmt :: rest =>
      match execute stmt st with
      | inl e => inl e
      | inr (st1, id) =>
          match execute_all rest st1 with
          | inl e => inl e
          | inr (st2, ids) => inr (st2, id :: ids)
          end
      end
  end.

(** Modelled from the spec: the driver's [select]. *)
Definition ref_select E (q : query E) (st : tables) : error + list (row_of E) :=
  inr (run_query q st).

(** Modelled from the spec: the driver's [insert]. *)
Definition ref_insert (stmt : insert_stmt) (st : tables)
  : tables * (error + list value) :=
  match execute stmt st with
  | inl e => (st, inl e)
  | inr (st', id) => (st', inr [id])
  end.

(** Modelled from the spec: the driver's [insert_many]; all statements
    take effect, or none does. *)
Definition ref_insert_many (stmts : list insert_stmt) (st : tables)
  : tables * (error + list value) :=
  match execute_all stmts st with
  | inl e => (st, inl e)
  | inr (st', ids) => (st', inr ids)
  end.

#[export] Instance reference_db : ModelDB tables := {
  db_select := ref_select;
  db_insert := ref_insert;
  db_insert_many := ref_insert_many }.

Definition empty : tables :=
  {| models := []; deployments := []; projects := []; flows := [];
     flow_of_flows := []; dependency_types := [];
     deployment_dependencies := []; now := 0%Z |}.

End Reference.

(** A world with no call recorded and nothing logged. *)
Definition fresh {store} (st : store) : world store :=
  {| w_store := st; w_calls := []; w_log := [] |}.

(** ** Vocabulary of the statements *)

(** Every supplied name is a declared column of [E]. *)
Definition declared (E : entity) (kw : kwargs) : bool :=
  forallb (fun k => mem_string k (columns E)) (keys kw).

(** The supplied names that are no declared column of [E]. *)
Definition undeclared (E : entity) (kw : kwargs) : list string :=
  filter (fun k => negb (mem_string k (columns E))) (keys kw).

(** The world after the driver has received one more call. *)
Definition called {store} (c : call) (w : world store) : world store :=
  {| w_store := w_store w; w_calls := w_calls w ++ [c]; w_log := w_log w |}.

(** The world after the logger has emitted one more record. *)
Definition logged {store} (r : log_record) (w : world store) : world store :=
  {| w_store := w_store w; w_calls := w_calls w; w_log := w_log w ++ [r] |}.

(** A computation that leaves the store as it was and sends the driver
    nothing but select statements, whether it returns or raises. *)
Definition read_only {store A} (m : M store A) : Prop :=
  forall w,
    w_store (fst (m w)) = w_store w /\
    exists cs, w_calls (fst (m w)) = w_calls w ++ cs /\
               forallb is_select cs = true.

(** The keyword arguments of a [store_model] call. *)
Definition model_fields (author laboratory facility beampath description : value)
  : kwargs :=
  [("author", author); ("laboratory", laboratory); ("facility", facility);
   ("beampath", beampath); ("description", description)].

(** The statement [store_model] hands to the driver. *)
Definition model_insert (author laboratory facility beampath description : value)
  : insert_stmt :=
  insert Model
    [("author", Lit author); ("laboratory", Lit laboratory);
     ("facility", Lit facility); ("beampath", Lit beampath);
     ("description", Lit description)].

(** What a store operation returns for the driver's answer to its insert:
    the first identifier, [None] when there is none, the driver's error. *)
Definition first_id (r : error + list value) : error + value :=
  match r with
  | inl e => inl e
  | inr (id :: _) => inr id
  | inr [] => inr VNone
  end.

(** The world after the driver has executed [stmt] on a call [c]. *)
Definition inserted {store} (c : call) (st : store) (w : world store)
  : world store :=
  {| w_store := st; w_calls := w_calls w ++ [c]; w_log := w_log w |}.

(** The criteria of the [get_model] call that follows it. *)
Definition model_criteria (author laboratory facility beampath : value)
  : kwargs :=
  [("author", author); ("laboratory", laboratory); ("facility", facility);
   ("beampath", beampath)].

(** The queries the get operations build. *)
Definition criteria_query (E : entity) (kw : kwargs) : query E :=
  filter_by (select E) kw.

Definition latest_query (kw : kwargs) : query Deployment :=
  order_by (filter_by (select Deployment) kw) (desc "deploy_date").

Definition dependencies_query (deployment_id : value)
  : query DeploymentDependency :=
  options
    (filter_by (select DeploymentDependency) [("deployment_id", deployment_id)])
    (joinedload "dependency_type").

(** The statement [store_dependencies] builds for one descriptor that has
    the keys it reads. *)
Definition dependency_stmt (deployment_id : value) (dep : dict) : insert_stmt :=
  insert DeploymentDependency
    [("deployment_id", Lit deployment_id);
     ("name", Lit (dict_get dep "name"));
     ("source", Lit (dict_get dep "source"));
     ("local_source", Lit (dict_get dep "local_source"));
     ("version", Lit (dict_get dep "version"));
     ("dependency_type_id",
      Scalar {| s_entity := DependencyType;
                s_column := "id";
                s_filter_by := [("type", dict_get dep "type")] |})].

(** What [store_dependencies] returns for the driver's answer to the batch:
    the identifiers, [None] when there is none, the driver's error. *)
Definition all_ids (r : error + list value) : error + option (list value) :=
  match r with
  | inl e => inl e
  | inr [] => inr None
  | inr (id :: ids) => inr (Some (id :: ids))
  end.

(** The keys of a descriptor that [store_dependencies] reads. *)
Definition read_keys : list string :=
  ["type"; "name"; "source"; "local_source"; "version"].

(** Two descriptors that hold the same under every key that is read. *)
Definition agree (d d' : dict) : Prop :=
  forall k, In k read_keys -> dict_find d k = dict_find d' k.

(** The statements the other store operations hand to the driver. *)
Definition deployment_insert
  (model_id version source sha256 image is_live asset_dir : value)
  : insert_stmt :=
  insert Deployment
    [("model_id", Lit model_id); ("version", Lit version);
     ("source", Lit source); ("sha256", Lit sha256); ("image", Lit image);
     ("is_live", Lit is_live); ("asset_dir", Lit asset_dir)].

Definition project_insert (project_name description : value) : insert_stmt :=
  insert Project
    [("project_name", Lit project_name); ("description", Lit description)].

Definition flow_insert (deployment_id flow_id flow_name project_name : value)
  : insert_stmt :=
  insert Flow
    [("flow_id", Lit flow_id); ("deployment_id", Lit deployment_id);
     ("flow_name", Lit flow_name); ("project_name", Lit project_name)].

(** A driver that executes a batch whole or not at all, and answers a
    batch it has executed with one identifier per statement: a batch that
    fails, and a batch of no statement, leave the store as it was. *)
Definition whole_batches {store} (db : ModelDB store) : Prop :=
  forall stmts st,
    match db_insert_many stmts st with
    | (st', inl _) => st' = st
    | (st', inr ids) =>
        List.length ids = List.length stmts /\ (stmts = [] -> st' = st)
    end.

(** The order of a list sorted greatest date first. *)
Definition later_first {A} (date : A -> Z) (x y : A) : Prop :=
  (date y <= date x)%Z.

(** A descriptor with the required keys [type], [name], [source] and
    [version]. *)
Definition well_formed (dep : dict) : bool :=
  forallb (fun k => mem_string k (keys dep)) ["type"; "name"; "source"; "version"].

(** The parameters of [store_model]. *)
Definition model_params : list string :=
  ["author"; "laboratory"; "facility"; "beampath"; "description"].

(** The keys [store_dependencies] reads with [dep[k]], in the order the
    loop reads them. *)
Definition required_keys : list string :=
  ["type"; "name"; "source"; "version"].

(** The first required key a descriptor lacks. *)
Definition missing_key (dep : dict) : option string :=
  find (fun k => negb (mem_string k (keys dep))) required_keys.

(** The first required key that the first incomplete descriptor lacks. *)
Fixpoint first_missing_key (deps : list dict) : option string :=
  match deps with
  | [] => None
  | dep :: rest =>
      match missing_key dep with
      | Some k => Some k
      | None => first_missing_key rest
      end
  end.

(** What an insert statement binds to a column. *)
Fixpoint binding (l : list (string * bound)) (column : string) : option bound :=
  match l with
  | [] => None
  | (c, b) :: l' => if String.eqb c column then Some b else binding l' column
  end.

(** A computation that logs nothing and either leaves the world as it was
    or sends the driver one statement, an insert. *)
Definition writes_once {store A} (m : M store A) : Prop :=
  forall w,
    fst (m w) = w \/
    exists c st,
      is_select c = false /\ fst (m w) = inserted c st w.

(** ** Sample stores *)

Module Sample.

Import Reference.

Definition model (id : Z) (desc : string) : ModelRow :=
  {| model_id := id;
     author := VStr "ada";
     laboratory := VStr "slac";
     facility := VStr "lcls";
     beampath := VStr "cu_hxr";
     description := VStr desc |}.

Definition deployment (id model date : Z) : DeploymentRow :=
  {| deployment_id := id;
     d_model_id := model;
     version := VStr "v1";
     source := VStr "https://example.org/model.tar.gz";
     sha256 := VStr "0f3a";
     image := VStr "model:latest";
     is_live := VBool false;
     asset_dir := VNone;
     deploy_date := date |}.

Definition member (id : string) : FlowRow :=
  {| flow_id := VStr id;
     f_deployment_id := 1;
     flow_name := VStr id;
     f_project_name := VStr "accelerator" |}.

Definition grouping (id : string) : FlowOfFlowsRow :=
  {| fof_id := VStr "composite";
     fof_flow_id := VStr id;
     flow := member id |}.

Definition pip : DependencyTypeRow := {| dt_id := 1; dt_type := VStr "pip" |}.

Definition conda : DependencyTypeRow :=
  {| dt_id := 2; dt_type := VStr "conda" |}.

Definition project (name : string) : ProjectRow :=
  {| project_name := VStr name; p_description := VStr "runs" |}.

(** Two models that differ in their description only; three deployments of
    the first, the latest stored in the middle; two projects; two flows
    grouped into a composite; two dependency types. *)
Definition populated : tables :=
  {| models := [model 1 "first"; model 2 "second"];
     deployments := [deployment 1 1 10; deployment 2 1 30; deployment 3 1 20];
     projects := [project "accelerator"; project "injector"];
     flows := [member "flow-a"; member "flow-b"];
     flow_of_flows := [grouping "flow-a"; grouping "flow-b"];
     dependency_types := [pip; conda];
     deployment_dependencies := [];
     now := 40 |}.

Definition numpy : dict :=
  [("name", VStr "numpy"); ("type", VStr "pip");
   ("source", VStr "https://pypi.org/numpy"); ("version", VStr "1.23")].

Definition scipy : dict :=
  [("name", VStr "scipy"); ("type", VStr "conda");
   ("source", VStr "https://conda.org/scipy"); ("version", VStr "1.9");
   ("local_source", VStr "/opt/scipy")].

(** A descriptor with a key that is no column and that nothing reads. *)
Definition annotated : dict := numpy ++ [("bogus", VInt 0)].

(** A descriptor whose type is no known dependency type. *)
Definition untyped : dict :=
  [("name", VStr "numpy"); ("type", VStr "wheel");
   ("source", VStr "https://pypi.org/numpy"); ("version", VStr "1.23")].

(** A backend object that carries a working directory of its own, one that
    carries none, a run configuration whose working directory the file
    service does not know, and that file service. *)
Definition backend : Local.LocalBackend :=
  {| Local.attributes := [("working_dir", Some "/srv/backend")] |}.

Definition bare_backend : Local.LocalBackend :=
  {| Local.attributes := [] |}.

Definition run_config : Local.LocalRunConfig :=
  {| Local.env := [("EPICS_CA_ADDR_LIST", "localhost")];
     Local.working_dir := Some "/srv/missing" |}.

(** The populated store with one dependency of the first deployment. *)
Definition dependency : DeploymentDependencyRow :=
  {| dd_id := 1;
     dd_deployment_id := 1;
     dd_name := VStr "numpy";
     dd_source := VStr "https://pypi.org/numpy";
     dd_local_source := VNone;
     dd_version := VStr "1.23";
     dependency_type_id := 1;
     dependency_type := pip |}.

Definition with_dependency : tables :=
  {| models := models populated;
     deployments := deployments populated;
     projects := projects populated;
     flows := flows populated;
     flow_of_flows := flow_of_flows populated;
     dependency_types := dependency_types populated;
     deployment_dependencies := [dependency];
     now := now populated |}.

(** A driver whose connection is down: every call fails. *)
Definition down : error := DriverError "connection refused".

Definition unreachable : ModelDB unit :=
  {| db_select := fun E _ _ => inl down;
     db_insert := fun _ st => (st, inl down);
     db_insert_many := fun _ st => (st, inl down) |}.

(** A descriptor without [source] and [version]. *)
Definition incomplete : dict :=
  [("name", VStr "numpy"); ("type", VStr "pip")].

(** The fields of a model, not in the order of the signature. *)
Definition shuffled : kwargs :=
  [("description", VStr "third"); ("beampath", VStr "cu_hxr");
   ("author", VStr "ada"); ("facility", VStr "lcls");
   ("laboratory", VStr "slac")].

(** A file service that knows the backend's directory in every
    namespace, and a second run configuration. *)
Definition open_file_service : Local.FileService :=
  {| Local.dir_exists := fun _ path =>
       match path with
       | Some p => p =? "/srv/backend"
       | None => false
       end |}.



Definition file_service : Local.FileService :=
  {| Local.dir_exists := fun namespace path =>
       match path with
       | Some p => (namespace =? "local") && (p =? "/srv/backend")
       | None => false
       end |}.

End Sample.

(** * Properties *)

(** ** Validation *)

Section Validation.

Context {store : Type} {model_db : ModelDB store}.

Lemma declared_undeclared E kw :
  declared E kw = true <-> undeclared E kw = [].
Proof.
  unfold declared, undeclared.
  induction (keys kw) as [|k ks IH]; simpl.
  - tauto.
  - destruct (mem_string k (columns E)); simpl.
    + exact IH.
    + split; discriminate.
Qed.

Lemma undeclared_In E kw k :
  In k (keys kw) -> mem_string k (columns E) = false -> undeclared E kw <> [].
Proof.
  intros Hin Hk Hnil.
  assert (In k (undeclared E kw)) as H.
  { unfold undeclared. apply filter_In. rewrite Hk. auto. }
  rewrite Hnil in H. exact H.
Qed.

Lemma validate_pass E A (func : kwargs -> M store A) kw :
  declared E kw = true -> validate_kwargs_exist E func kw = func kw.
Proof.
  intros H. apply declared_undeclared in H.
  unfold validate_kwargs_exist. fold (undeclared E kw). now rewrite H.
Qed.

Lemma validate_reject E A (func : kwargs -> M store A) kw w :
  undeclared E kw <> [] ->
  validate_kwargs_exist E func kw w = (w, inl (ValueError E (undeclared E kw))).
Proof.
  intros H. unfold validate_kwargs_exist. fold (undeclared E kw).
  destruct (undeclared E kw); [contradiction | reflexivity].
Qed.

End Validation.

(** ** Not found, and rejected criteria *)

Section NotFound.

Context {store : Type} {model_db : ModelDB store}.

Lemma select_then A E (q : query E) (k : list (row_of E) -> M store A) w rows :
  db_select q (w_store w) = inr rows ->
  bind (model_db_select q) k w = k rows (called (CallSelect q) w).
Proof.
  intros H. unfold bind, model_db_select. now rewrite H.
Qed.

Lemma select_fails A E (q : query E) (k : list (row_of E) -> M store A) w e :
  db_select q (w_store w) = inl e ->
  bind (model_db_select q) k w = (called (CallSelect q) w, inl e).
Proof.
  intros H. unfold bind, model_db_select. now rewrite H.
Qed.

(** C1: when the criteria are valid and the driver finds zero matching
    rows, each get operation raises the not-found error of its entity, and
    returns no value: [get_model] raises [ModelNotFoundError],
    [get_deployment] and [get_latest_deployment] raise
    [DeploymentNotFoundError], [get_project] raises [ProjectNotFoundError],
    [get_flow] raises [FlowNotFoundError], [get_flow_of_flows] raises
    [FlowOfFlowsNotFoundError], and [get_dependencies] raises
    [DeploymentNotFoundError]. *)
Theorem get_zero_rows_raises_not_found (w : world store) (kw : kwargs)
  (deployment_id : value) :
  (declared Model kw = true ->
   db_select (criteria_query Model kw) (w_store w) = inr [] ->
   get_model kw w =
     (called (CallSelect (criteria_query Model kw)) w,
      inl (ModelNotFoundError (criteria_query Model kw)))) /\
  (declared Deployment kw = true ->
   db_select (criteria_query Deployment kw) (w_store w) = inr [] ->
   get_deployment kw w =
     (called (CallSelect (criteria_query Deployment kw)) w,
      inl (DeploymentNotFoundError (criteria_query Deployment kw)))) /\
  (declared Deployment kw = true ->
   db_select (latest_query kw) (w_store w) = inr [] ->
   get_latest_deployment kw w =
     (called (CallSelect (latest_query kw)) w,
      inl (DeploymentNotFoundError (latest_query kw)))) /\
  (declared Project kw = true ->
   db_select (criteria_query Project kw) (w_store w) = inr [] ->
   get_project kw w =
     (called (CallSelect (criteria_query Project kw)) w,
      inl (ProjectNotFoundError (criteria_query Project kw)))) /\
  (declared Flow kw = true ->
   db_select (criteria_query Flow kw) (w_store w) = inr [] ->
   get_flow kw w =
     (called (CallSelect (criteria_query Flow kw)) w,
      inl (FlowNotFoundError (criteria_query Flow kw)))) /\
  (declared FlowOfFlows kw = true ->
   db_select (criteria_query FlowOfFlows kw) (w_store w) = inr [] ->
   get_flow_of_flows kw w =
     (called (CallSelect (criteria_query FlowOfFlows kw)) w,
      inl (FlowOfFlowsNotFoundError (criteria_query FlowOfFlows kw)))) /\
  (db_select (dependencies_query deployment_id) (w_store w) = inr [] ->
   get_dependencies deployment_id w =
     (called (CallSelect (dependencies_query deployment_id)) w,
      inl (DeploymentNotFoundError (dependencies_query deployment_id)))).
Proof.
  repeat match goal with |- _ /\ _ => split end.
  all: try (intros Hd Hs;
    unfold get_model, get_deployment, get_latest_deployment, get_project,
      get_flow, get_flow_of_flows;
    rewrite (validate_pass _ _ _ Hd); cbv zeta;
    fold (criteria_query Model kw); fold (criteria_query Deployment kw);
    fold (criteria_query Project kw); fold (criteria_query Flow kw);
    fold (criteria_query FlowOfFlows kw); fold (latest_query kw);
    now rewrite (select_then _ _ _ Hs)).
  intros Hs. unfold get_dependencies. cbv zeta.
  fold (dependencies_query deployment_id).
  now rewrite (select_then _ _ _ Hs).
Qed.

(** C2: a criteria set with a key that is no declared column of the entity
    makes each criteria-taking get operation fail with the validation
    error, and the world is handed back as it was: the driver has received
    no call. *)
Theorem undeclared_criterion_fails_before_query (w : world store)
  (kw : kwargs) (k : string) :
  In k (keys kw) ->
  (mem_string k (columns Model) = false ->
   get_model kw w = (w, inl (ValueError Model (undeclared Model kw)))) /\
  (mem_string k (columns Deployment) = false ->
   get_deployment kw w =
     (w, inl (ValueError Deployment (undeclared Deployment kw))) /\
   get_latest_deployment kw w =
     (w, inl (ValueError Deployment (undeclared Deployment kw)))) /\
  (mem_string k (columns Project) = false ->
   get_project kw w = (w, inl (ValueError Project (undeclared Project kw)))) /\
  (mem_string k (columns Flow) = false ->
   get_flow kw w = (w, inl (ValueError Flow (undeclared Flow kw)))) /\
  (mem_string k (columns FlowOfFlows) = false ->
   get_flow_of_flows kw w =
     (w, inl (ValueError FlowOfFlows (undeclared FlowOfFlows kw)))).
Proof.
  intros Hin.
  repeat match goal with |- _ /\ _ => split end; intros Hk;
    try split; apply validate_reject; eapply undeclared_In; eauto.
Qed.

End NotFound.

(** ** Several rows, member flows *)

Section Found.

Context {store : Type} {model_db : ModelDB store}.

(** C8: when the driver returns more than one row, [get_model],
    [get_deployment], [get_project] and [get_flow] each emit one warning
    that names the identifying attribute of the first row, and return the
    first row in the order the driver returned them; none of them
    raises. *)
Theorem get_many_rows_warns_and_returns_first (w : world store) (kw : kwargs) :
  (forall r1 r2 rest,
     declared Model kw = true ->
     db_select (criteria_query Model kw) (w_store w) = inr (r1 :: r2 :: rest) ->
     exists msg,
       get_model kw w =
         (logged (Warning msg "model_id" (VInt (model_id r1)))
            (called (CallSelect (criteria_query Model kw)) w),
          inr r1)) /\
  (forall r1 r2 rest,
     declared Deployment kw = true ->
     db_select (criteria_query Deployment kw) (w_store w)
       = inr (r1 :: r2 :: rest) ->
     exists msg,
       get_deployment kw w =
         (logged (Warning msg "deployment_id" (VInt (deployment_id r1)))
            (called (CallSelect (criteria_query Deployment kw)) w),
          inr r1)) /\
  (forall r1 r2 rest,
     declared Project kw = true ->
     db_select (criteria_query Project kw) (w_store w)
       = inr (r1 :: r2 :: rest) ->
     exists msg,
       get_project kw w =
         (logged (Warning msg "name" (project_name r1))
            (called (CallSelect (criteria_query Project kw)) w),
          inr r1)) /\
  (forall r1 r2 rest,
     declared Flow kw = true ->
     db_select (criteria_query Flow kw) (w_store w) = inr (r1 :: r2 :: rest) ->
     exists msg,
       get_flow kw w =
         (logged (Warning msg "flow_id" (flow_id r1))
            (called (CallSelect (criteria_query Flow kw)) w),
          inr r1)).
Proof.
  repeat match goal with |- _ /\ _ => split end;
    intros r1 r2 rest Hd Hs; eexists;
    unfold get_model, get_deployment, get_project, get_flow;
    rewrite (validate_pass _ _ _ Hd); cbv zeta;
    fold (criteria_query Model kw); fold (criteria_query Deployment kw);
    fold (criteria_query Project kw); fold (criteria_query Flow kw);
    rewrite (select_then _ _ _ Hs); reflexivity.
Qed.

(** C6: when the criteria select [M] rows of the grouping, with [M]
    positive, [get_flow_of_flows] returns the [M] member flows, the [flow]
    of each row in the driver's order, and not the grouping rows. *)
Theorem get_flow_of_flows_returns_members (w : world store) (kw : kwargs)
  (rows : list FlowOfFlowsRow) :
  declared FlowOfFlows kw = true ->
  db_select (criteria_query FlowOfFlows kw) (w_store w) = inr rows ->
  rows <> [] ->
  get_flow_of_flows kw w =
    (called (CallSelect (criteria_query FlowOfFlows kw)) w,
     inr (map flow rows)) /\
  List.length (map flow rows) = List.length rows.
Proof.
  intros Hd Hs Hne. split.
  - unfold get_flow_of_flows. rewrite (validate_pass _ _ _ Hd). cbv zeta.
    fold (criteria_query FlowOfFlows kw). rewrite (select_then _ _ _ Hs).
    destruct rows; [contradiction | reflexivity].
  - apply length_map.
Qed.

End Found.

(** ** The get operations only read *)

Section ReadOnly.

Context {store : Type} {model_db : ModelDB store}.

Lemma read_only_ret A (a : A) : read_only (ret (store := store) a).
Proof.
  intros w. split; [reflexivity|]. exists []. now rewrite app_nil_r.
Qed.

Lemma read_only_raise A e : read_only (raise (store := store) (A := A) e).
Proof.
  intros w. split; [reflexivity|]. exists []. now rewrite app_nil_r.
Qed.

Lemma read_only_warning msg a1 a2 :
  read_only (logger_warning (store := store) msg a1 a2).
Proof.
  intros w. split; [reflexivity|]. exists []. simpl. now rewrite app_nil_r.
Qed.

Lemma read_only_select E (q : query E) : read_only (model_db_select q).
Proof.
  intros w. split; [reflexivity|]. exists [CallSelect q]. now simpl.
Qed.

Lemma read_only_bind A B (m : M store A) (k : A -> M store B) :
  read_only m -> (forall a, read_only (k a)) -> read_only (bind m k).
Proof.
  intros Hm Hk w. unfold bind.
  destruct (Hm w) as (Hs & cs & Hc & Hf).
  destruct (m w) as [w1 [e|a]]; simpl in *.
  - split; [exact Hs|]. exists cs. auto.
  - destruct (Hk a w1) as (Hs' & cs' & Hc' & Hf').
    split; [congruence|].
    exists (cs ++ cs'). rewrite Hc', Hc, app_assoc. split; [reflexivity|].
    rewrite forallb_app, Hf, Hf'. reflexivity.
Qed.

Lemma read_only_validate E A (func : kwargs -> M store A) kw :
  read_only (func kw) -> read_only (validate_kwargs_exist E func kw).
Proof.
  intros H. unfold validate_kwargs_exist.
  destruct (filter _ _); [exact H | apply read_only_raise].
Qed.

Ltac read_only_step :=
  first
    [ apply read_only_validate
    | apply read_only_bind; [| intro]
    | apply read_only_select
    | apply read_only_warning
    | apply read_only_ret
    | apply read_only_raise
    | match goal with
      | |- read_only (match ?l with [] => _ | _ :: _ => _ end) => destruct l
      | |- read_only (if ?b then _ else _) => destruct b
      end ].

(** C10: every get operation leaves the store as it was and sends the
    driver select statements only, never an insert, whether it returns or
    raises. *)
Theorem get_operations_read_only (kw : kwargs) (deployment_id : value) :
  read_only (get_model kw) /\
  read_only (get_deployment kw) /\
  read_only (get_latest_deployment kw) /\
  read_only (get_project kw) /\
  read_only (get_flow kw) /\
  read_only (get_flow_of_flows kw) /\
  read_only (get_dependencies deployment_id).
Proof.
  repeat match goal with |- _ /\ _ => split end;
    unfold get_model, get_deployment, get_latest_deployment, get_project,
      get_flow, get_flow_of_flows, get_dependencies;
    cbv zeta; repeat read_only_step.
Qed.

End ReadOnly.

(** ** The reference driver: ordering *)

Section Ordering.

Import Reference.

Variable A : Type.
Variable key : A -> value.
Variable date : A -> Z.
Hypothesis key_date : forall x, key x = VInt (date x).

Lemma insert_desc_In x y l :
  In y (insert_desc key x l) <-> y = x \/ In y l.
Proof.
  induction l as [|z l IH]; simpl.
  - intuition.
  - destruct (value_ltb (key x) (key z)); simpl; rewrite ?IH; intuition.
Qed.

Lemma sort_desc_In y l : In y (sort_desc key l) <-> In y l.
Proof.
  induction l as [|x l IH]; simpl.
  - tauto.
  - rewrite insert_desc_In, IH. intuition.
Qed.

Lemma insert_desc_sorted x l :
  StronglySorted (later_first date) l ->
  StronglySorted (later_first date) (insert_desc key x l).
Proof.
  induction 1 as [|z l Hs IH Hz]; simpl.
  - constructor; constructor.
  - rewrite !key_date. simpl. destruct (Z.ltb_spec (date x) (date z)) as [Hlt|Hge].
    + constructor; [exact IH|].
      apply Forall_forall. intros y Hy. apply insert_desc_In in Hy.
      destruct Hy as [->|Hy].
      * unfold later_first. lia.
      * rewrite Forall_forall in Hz. auto.
    + constructor; [constructor; assumption|].
      constructor; [exact Hge|].
      rewrite Forall_forall in *. intros y Hy.
      specialize (Hz y Hy). unfold later_first in *. lia.
Qed.

Lemma sort_desc_sorted l : StronglySorted (later_first date) (sort_desc key l).
Proof.
  induction l as [|x l IH]; simpl.
  - constructor.
  - now apply insert_desc_sorted.
Qed.

(** The first row of the sorted list is in the list and none is later. *)
Lemma sort_desc_head l x :
  In x l ->
  exists h t, sort_desc key l = h :: t /\ In h l /\
              forall y, In y l -> (date y <= date h)%Z.
Proof.
  intros Hx.
  pose proof (sort_desc_sorted l) as Hs.
  assert (In x (sort_desc key l)) as Hx' by now apply sort_desc_In.
  destruct (sort_desc key l) as [|h t] eqn:E; [contradiction|].
  exists h, t. split; [reflexivity|]. split.
  - apply sort_desc_In. rewrite E. now left.
  - intros y Hy. apply sort_desc_In in Hy. rewrite E in Hy.
    inversion Hs as [|? ? _ Hall]; subst.
    destruct Hy as [->|Hy]; [lia|].
    rewrite Forall_forall in Hall. exact (Hall y Hy).
Qed.

End Ordering.

(** ** The latest deployment *)

Section Latest.

Import Reference.

Lemma deploy_date_key (r : DeploymentRow) :
  sort_key (E := Deployment) "deploy_date" r = VInt (deploy_date r).
Proof. reflexivity. Qed.

(** C3: on the reference driver, when the criteria are valid and some
    Deployment row matches them, [get_latest_deployment] returns a matching
    row whose [deploy_date] is the maximum over all the matching rows: the
    driver orders the matches by [deploy_date] descending and the service
    returns the first. *)
Theorem get_latest_deployment_returns_latest (w : world tables) (kw : kwargs)
  (d0 : DeploymentRow) :
  declared Deployment kw = true ->
  In d0 (deployments (w_store w)) ->
  matches (E := Deployment) kw d0 = true ->
  exists d,
    get_latest_deployment kw w =
      (called (CallSelect (latest_query kw)) w, inr d) /\
    In d (deployments (w_store w)) /\
    matches (E := Deployment) kw d = true /\
    forall d', In d' (deployments (w_store w)) ->
               matches (E := Deployment) kw d' = true ->
               (deploy_date d' <= deploy_date d)%Z.
Proof.
  intros Hd Hin Hm.
  set (rows := filter (matches (E := Deployment) kw) (deployments (w_store w))).
  assert (In d0 rows) as H0 by (apply filter_In; auto).
  destruct (sort_desc_head (sort_key (E := Deployment) "deploy_date")
              deploy_date deploy_date_key rows d0 H0)
    as (h & t & Hsort & Hh & Hmax).
  exists h. apply filter_In in Hh. destruct Hh as [Hh1 Hh2].
  repeat split; auto.
  - unfold get_latest_deployment. rewrite (validate_pass _ _ _ Hd). cbv zeta.
    fold (latest_query kw).
    assert (db_select (latest_query kw) (w_store w) = inr (h :: t)) as Hs.
    { simpl. unfold ref_select, run_query.
      cbn [latest_query order_by filter_by select q_order_by q_filter_by app].
      change (table Deployment (w_store w)) with (deployments (w_store w)).
      fold rows. now rewrite Hsort. }
    now rewrite (select_then _ _ _ Hs).
  - intros d' Hin' Hm'. apply Hmax. apply filter_In. auto.
Qed.

Lemma get_latest_deployment_returns_latest_witness :
  exists d,
    get_latest_deployment [("model_id", VInt 1)] (fresh Sample.populated) =
      (called (CallSelect (latest_query [("model_id", VInt 1)]))
         (fresh Sample.populated), inr d) /\
    In d (deployments Sample.populated) /\
    matches (E := Deployment) [("model_id", VInt 1)] d = true /\
    forall d', In d' (deployments Sample.populated) ->
               matches (E := Deployment) [("model_id", VInt 1)] d' = true ->
               (deploy_date d' <= deploy_date d)%Z.
Proof.
  apply (get_latest_deployment_returns_latest (fresh Sample.populated)
           [("model_id", VInt 1)] (Sample.deployment 1 1 10)).
  - reflexivity.
  - simpl. auto.
  - reflexivity.
Defined.

(** Deployments dated 10, 30 and 20 of one model: the one dated 30 is
    returned, wherever it is stored. *)
Example get_latest_deployment_of_three :
  snd (get_latest_deployment [("model_id", VInt 1)] (fresh Sample.populated))
  = inr (Sample.deployment 2 1 30).
Proof. reflexivity. Qed.

End Latest.

(** ** Storing a model and reading it back *)

Section StoreModel.

Import Reference.

Lemma value_eqb_refl v : value_eqb v v = true.
Proof.
  destruct v; simpl; auto using Z.eqb_refl, String.eqb_refl, Bool.eqb_reflx.
Qed.

Lemma filter_none A (p : A -> bool) l :
  (forall x, In x l -> p x = false) -> filter p l = [].
Proof.
  induction l as [|x l IH]; simpl; intros H; [reflexivity|].
  rewrite (H x) by auto. apply IH. auto.
Qed.

Lemma store_model_with_fields store (db : ModelDB store) a l f b d
  (w : world store) :
  store_model (model_fields a l f b d) w =
    (inserted (CallInsert (model_insert a l f b d))
       (fst (db_insert (model_insert a l f b d) (w_store w))) w,
     first_id (snd (db_insert (model_insert a l f b d) (w_store w)))).
Proof.
  unfold store_model, validate_kwargs_exist. cbn.
  unfold store_model_def, bind, model_db_insert. cbv zeta.
  fold (model_insert a l f b d).
  destruct (db_insert (model_insert a l f b d) (w_store w))
    as [st [e|[|id rest]]]; reflexivity.
Qed.

(** C7, as amended: [store_model] returns the first identifier of the
    driver's answer to the insert, and [None] when the answer holds no
    identifier.  On the reference driver, when no Model row stored before
    has the same author, laboratory, facility and beampath, the [get_model]
    that follows with these four criteria returns the record whose fields
    are the inputs and whose identifier is the value [store_model]
    returned. *)
Theorem store_model_then_get_model :
  (forall store (db : ModelDB store) (w : world store) a l f b d,
     store_model (model_fields a l f b d) w =
       (inserted (CallInsert (model_insert a l f b d))
          (fst (db_insert (model_insert a l f b d) (w_store w))) w,
        first_id (snd (db_insert (model_insert a l f b d) (w_store w))))) /\
  (forall (w : world tables) a l f b d,
     (forall r, In r (models (w_store w)) ->
                matches (E := Model) (model_criteria a l f b) r = false) ->
     exists id w1,
       store_model (model_fields a l f b d) w = (w1, inr (VInt id)) /\
       get_model (model_criteria a l f b) w1 =
         (called (CallSelect (criteria_query Model (model_criteria a l f b))) w1,
          inr {| model_id := id; author := a; laboratory := l;
                 facility := f; beampath := b; description := d |})).
Proof.
  split.
  - intros. apply store_model_with_fields.
  - intros w a l f b d Hnone.
    rewrite store_model_with_fields.
    eexists. eexists. split; [reflexivity|].
    unfold get_model, validate_kwargs_exist. cbn. unfold bind. cbn.
    unfold ref_select, run_query. cbn.
    rewrite filter_app, (filter_none _ _ Hnone). cbn.
    rewrite !value_eqb_refl. cbn. reflexivity.
Qed.

Lemma store_model_then_get_model_witness :
  exists id w1,
    store_model
      (model_fields (VStr "ada") (VStr "slac") (VStr "lcls") (VStr "cu_hxr")
         (VStr "first")) (fresh empty) = (w1, inr (VInt id)) /\
    get_model
      (model_criteria (VStr "ada") (VStr "slac") (VStr "lcls") (VStr "cu_hxr"))
      w1 =
      (called
         (CallSelect
            (criteria_query Model
               (model_criteria (VStr "ada") (VStr "slac") (VStr "lcls")
                  (VStr "cu_hxr")))) w1,
       inr {| model_id := id; author := VStr "ada"; laboratory := VStr "slac";
              facility := VStr "lcls"; beampath := VStr "cu_hxr";
              description := VStr "first" |}).
Proof.
  apply (proj2 store_model_then_get_model (fresh empty)
           (VStr "ada") (VStr "slac") (VStr "lcls") (VStr "cu_hxr")
           (VStr "first")).
  simpl. intros r [].
Defined.

(** C7, as stated, fails: a store that already holds a model of the same
    author, laboratory, facility and beampath answers the [get_model] that
    follows [store_model] with the earlier row, whose identifier and
    description are not those of the call. *)
Lemma store_model_then_get_model_earlier_row :
  ~ (forall (w w1 : world tables) a l f b d id,
       store_model (model_fields a l f b d) w = (w1, inr id) ->
       exists w2 r,
         get_model (model_criteria a l f b) w1 = (w2, inr r) /\
         VInt (model_id r) = id /\
         author r = a /\ laboratory r = l /\ facility r = f /\
         beampath r = b /\ description r = d).
Proof.
  intros H.
  destruct (H (fresh Sample.populated) _
              (VStr "ada") (VStr "slac") (VStr "lcls") (VStr "cu_hxr")
              (VStr "third") _ eq_refl)
    as (w2 & r & Hget & Hid & _).
  cbv in Hget. inversion Hget; subst. discriminate Hid.
Qed.

End StoreModel.

(** ** Storing dependencies *)

Section StoreDependencies.

Context {store : Type} {model_db : ModelDB store}.

Lemma dict_item_present (d : dict) k (w : world store) :
  mem_string k (keys d) = true ->
  dict_item d k w = (w, inr (dict_get d k)).
Proof.
  unfold dict_item, dict_get.
  induction d as [|[k' v] d IH]; simpl; [discriminate|].
  rewrite (String.eqb_sym k k').
  destruct (String.eqb k' k); simpl; auto.
Qed.

Lemma dict_item_absent (d : dict) k (w : world store) :
  mem_string k (keys d) = false ->
  dict_item d k w = (w, inl (KeyError k)).
Proof.
  unfold dict_item.
  induction d as [|[k' v] d IH]; simpl; [reflexivity|].
  rewrite (String.eqb_sym k k').
  destruct (String.eqb k' k); simpl; [discriminate | auto].
Qed.

Lemma dependency_insert_well_formed id dep (w : world store) :
  well_formed dep = true ->
  dependency_insert id dep w = (w, inr (dependency_stmt id dep)).
Proof.
  unfold well_formed. simpl. rewrite !andb_true_iff.
  intros (Ht & Hn & Hs & Hv & _).
  unfold dependency_insert, bind.
  rewrite (dict_item_present _ _ _ Ht). cbv zeta.
  rewrite (dict_item_present _ _ _ Hn), (dict_item_present _ _ _ Hs),
    (dict_item_present _ _ _ Hv).
  reflexivity.
Qed.

Lemma dependency_insert_ill_formed id dep (w : world store) :
  well_formed dep = false ->
  exists k, dependency_insert id dep w = (w, inl (KeyError k)).
Proof.
  unfold well_formed. simpl. intros H.
  unfold dependency_insert, bind.
  destruct (mem_string "type" (keys dep)) eqn:Ht;
    [rewrite (dict_item_present _ _ _ Ht)
    | rewrite (dict_item_absent _ _ _ Ht); eauto].
  cbv zeta.
  destruct (mem_string "name" (keys dep)) eqn:Hn;
    [rewrite (dict_item_present _ _ _ Hn)
    | rewrite (dict_item_absent _ _ _ Hn); eauto].
  destruct (mem_string "source" (keys dep)) eqn:Hs;
    [rewrite (dict_item_present _ _ _ Hs)
    | rewrite (dict_item_absent _ _ _ Hs); eauto].
  destruct (mem_string "version" (keys dep)) eqn:Hv;
    [discriminate H | rewrite (dict_item_absent _ _ _ Hv); eauto].
Qed.

Lemma dependency_inserts_well_formed id deps stmts (w : world store) :
  forallb well_formed deps = true ->
  dependency_inserts id deps stmts w =
    (w, inr (stmts ++ map (dependency_stmt id) deps)).
Proof.
  revert stmts. induction deps as [|dep deps IH]; simpl; intros stmts H.
  - now rewrite app_nil_r.
  - apply andb_true_iff in H. destruct H as [Hd Hr].
    unfold bind. rewrite (dependency_insert_well_formed _ _ _ Hd).
    rewrite (IH _ Hr), <- app_assoc. reflexivity.
Qed.

Lemma dependency_inserts_ill_formed id deps stmts (w : world store) :
  forallb well_formed deps = false ->
  exists k, dependency_inserts id deps stmts w = (w, inl (KeyError k)).
Proof.
  revert stmts. induction deps as [|dep deps IH]; simpl; intros stmts H.
  - discriminate.
  - unfold bind. destruct (well_formed dep) eqn:Hd.
    + rewrite (dependency_insert_well_formed _ _ _ Hd). apply IH. exact H.
    + destruct (dependency_insert_ill_formed id dep w Hd) as [k Hk].
      rewrite Hk. eauto.
Qed.

(** The single call [store_dependencies] makes on the driver, and what it
    returns for the driver's answer. *)
Lemma store_dependencies_well_formed deps id (w : world store) :
  forallb well_formed deps = true ->
  store_dependencies deps id w =
    (inserted (CallInsertMany (map (dependency_stmt id) deps))
       (fst (db_insert_many (map (dependency_stmt id) deps) (w_store w))) w,
     all_ids (snd (db_insert_many (map (dependency_stmt id) deps) (w_store w)))).
Proof.
  intros H. unfold store_dependencies, bind.
  rewrite (dependency_inserts_well_formed _ _ _ _ H). simpl.
  unfold model_db_insert_many.
  destruct (db_insert_many (map (dependency_stmt id) deps) (w_store w))
    as [st [e|[|i ids]]]; reflexivity.
Qed.

Lemma store_dependencies_ill_formed deps id (w : world store) :
  forallb well_formed deps = false ->
  exists k, store_dependencies deps id w = (w, inl (KeyError k)).
Proof.
  intros H. unfold store_dependencies, bind.
  destruct (dependency_inserts_ill_formed id deps [] w H) as [k Hk].
  rewrite Hk. eauto.
Qed.

Lemma get_dependencies_found id (w : world store) rows :
  db_select (dependencies_query id) (w_store w) = inr rows ->
  rows <> [] ->
  get_dependencies id w =
    (called (CallSelect (dependencies_query id)) w, inr rows).
Proof.
  intros Hs Hne. unfold get_dependencies. cbv zeta.
  fold (dependencies_query id). rewrite (select_then _ _ _ Hs).
  destruct rows; [contradiction | reflexivity].
Qed.

End StoreDependencies.

Section BatchOnReference.

Import Reference.

(** A dependency statement that the reference driver executes adds one
    row, of the deployment the call names. *)
Lemma execute_dependency_stmt id dep st st' v :
  execute (dependency_stmt id dep) st = inr (st', v) ->
  exists r,
    deployment_dependencies st' = deployment_dependencies st ++ [r] /\
    VInt (dd_deployment_id r) = id.
Proof.
  unfold execute. cbn.
  destruct (run_scalar _ st) as [e|ty]; [discriminate|]. cbn.
  destruct id as [|dep_id| |]; try discriminate.
  destruct ty as [|ty| |]; try discriminate.
  destruct (has_deployment st dep_id); try discriminate.
  destruct (find_dependency_type st ty) as [t|]; try discriminate.
  intros H. inversion H; subst; clear H. cbn. eauto.
Qed.

Lemma execute_all_dependency_stmts id deps : forall st st' ids,
  execute_all (map (dependency_stmt id) deps) st = inr (st', ids) ->
  List.length ids = List.length deps /\
  exists rs,
    deployment_dependencies st' = deployment_dependencies st ++ rs /\
    List.length rs = List.length deps /\
    Forall (fun r => VInt (dd_deployment_id r) = id) rs.
Proof.
  induction deps as [|dep deps IH]; intros st st' ids; simpl.
  - intros H. inversion H; subst. split; [reflexivity|].
    exists []. rewrite app_nil_r. auto.
  - destruct (execute (dependency_stmt id dep) st) as [e|[st1 v]] eqn:E1;
      [discriminate|].
    destruct (execute_all (map (dependency_stmt id) deps) st1)
      as [e|[st2 vs]] eqn:E2; [discriminate|].
    intros H. inversion H; subst; clear H.
    destruct (execute_dependency_stmt _ _ _ E1) as (r & Hr & Hid).
    destruct (IH _ _ _ E2) as (Hlen & rs & Hrs & Hlen' & Hall).
    split; [simpl; congruence|].
    exists (r :: rs). rewrite Hrs, Hr, <- app_assoc. simpl.
    repeat split; auto.
Qed.

Lemma filter_all A (p : A -> bool) l :
  Forall (fun x => p x = true) l -> filter p l = l.
Proof.
  induction 1 as [|x l Hx _ IH]; simpl; [reflexivity|].
  now rewrite Hx, IH.
Qed.

Lemma dependency_row_matches id (r : DeploymentDependencyRow) :
  VInt (dd_deployment_id r) = id ->
  matches (E := DeploymentDependency) [("deployment_id", id)] r = true.
Proof.
  intros <-. cbn. now rewrite Z.eqb_refl.
Qed.

Lemma execute_all_length stmts : forall st st' ids,
  execute_all stmts st = inr (st', ids) ->
  List.length ids = List.length stmts.
Proof.
  induction stmts as [|stmt stmts IH]; intros st st' ids; simpl.
  - intros H. now inversion H.
  - destruct (execute stmt st) as [e|[st1 v]]; [discriminate|].
    destruct (execute_all stmts st1) as [e|[st2 vs]] eqn:E; [discriminate|].
    intros H. inversion H; subst. simpl. f_equal. eapply IH. exact E.
Qed.

(** The reference driver executes a batch whole or not at all and answers
    with one identifier per statement. *)
Lemma reference_whole_batches : whole_batches reference_db.
Proof.
  intros stmts st. simpl. unfold ref_insert_many.
  destruct (execute_all stmts st) as [e|[st' ids]] eqn:E; [reflexivity|].
  split.
  - eapply execute_all_length. exact E.
  - intros ->. simpl in E. now inversion E.
Qed.

End BatchOnReference.

Section Batch.

Import Reference.

(** C4, as amended: for [N] descriptors that have the keys the loop reads,
    [store_dependencies] makes one call on the driver, an [insert_many]
    that carries [N] insert statements, one per descriptor and in their
    order, each resolving the type by a scalar sub-query embedded in the
    statement; it returns the driver's identifiers when there is one at
    least, [None] when there is none, and fails as the driver fails.  A
    descriptor without a required key fails the call with [KeyError] before
    the driver is called.  Under every driver that executes a batch whole
    or not at all and answers an executed batch with one identifier per
    statement, a call that returns identifiers returns exactly [N], a call
    that returns [None] had no descriptor and leaves the store as it was,
    and a call that fails leaves the store as it was.  The reference driver
    is such a driver, and on it the [get_dependencies] that follows a call
    that returned identifiers returns the rows of the deployment stored
    before, followed by [N] new ones. *)
Theorem store_dependencies_batch :
  (forall store (db : ModelDB store) (w : world store) deps id,
     forallb well_formed deps = true ->
     store_dependencies deps id w =
       (inserted (CallInsertMany (map (dependency_stmt id) deps))
          (fst (db_insert_many (map (dependency_stmt id) deps) (w_store w))) w,
        all_ids
          (snd (db_insert_many (map (dependency_stmt id) deps) (w_store w))))) /\
  (forall store (db : ModelDB store) (w : world store) deps id,
     forallb well_formed deps = false ->
     exists k, store_dependencies deps id w = (w, inl (KeyError k))) /\
  (forall store (db : ModelDB store),
     whole_batches db ->
     forall (w w1 : world store) deps id r,
       forallb well_formed deps = true ->
       store_dependencies deps id w = (w1, r) ->
       match r with
       | inl _ => w_store w1 = w_store w
       | inr None => deps = [] /\ w_store w1 = w_store w
       | inr (Some ids) => List.length ids = List.length deps
       end) /\
  whole_batches reference_db /\
  (forall (w w1 : world tables) deps id ids,
     forallb well_formed deps = true ->
     store_dependencies deps id w = (w1, inr (Some ids)) ->
     exists rows,
       List.length rows = List.length deps /\
       get_dependencies id w1 =
         (called (CallSelect (dependencies_query id)) w1,
          inr (filter
                 (matches (E := DeploymentDependency) [("deployment_id", id)])
                 (deployment_dependencies (w_store w)) ++ rows))).
Proof.
  split; [|split; [|split; [|split]]].
  - intros. now apply store_dependencies_well_formed.
  - intros. now apply store_dependencies_ill_formed.
  - intros store db Hdb w w1 deps id r Hwf Hrun.
    rewrite (store_dependencies_well_formed _ _ _ Hwf) in Hrun.
    specialize (Hdb (map (dependency_stmt id) deps) (w_store w)).
    destruct (db_insert_many (map (dependency_stmt id) deps) (w_store w))
      as [st' [e|ids]]; simpl in Hrun; inversion Hrun; clear Hrun.
    + simpl. exact Hdb.
    + destruct Hdb as [Hlen Hempty]. rewrite length_map in Hlen.
      destruct ids as [|i ids]; simpl.
      * destruct deps; [|discriminate Hlen]. split; [reflexivity|].
        now apply Hempty.
      * exact Hlen.
  - exact reference_whole_batches.
  - intros w w1 deps id ids Hwf Hrun.
    rewrite (store_dependencies_well_formed _ _ _ Hwf) in Hrun.
    simpl in Hrun. unfold ref_insert_many in Hrun.
    destruct (execute_all (map (dependency_stmt id) deps) (w_store w))
      as [e|[st' ids']] eqn:E; simpl in Hrun; [discriminate Hrun|].
    destruct ids' as [|i ids']; [discriminate Hrun|].
    inversion Hrun; subst; clear Hrun.
    destruct (execute_all_dependency_stmts _ _ _ E)
      as (Hlen & rs & Hrs & Hlen' & Hall).
    exists rs. split; [exact Hlen'|].
    assert (db_select (dependencies_query id) st' =
            inr (filter (matches (E := DeploymentDependency)
                           [("deployment_id", id)])
                   (deployment_dependencies (w_store w)) ++ rs)) as Hs.
    { simpl. unfold ref_select, run_query. cbn. rewrite Hrs, filter_app.
      f_equal. f_equal. apply filter_all.
      eapply Forall_impl; [|exact Hall].
      intros a Ha. now apply dependency_row_matches. }
    apply get_dependencies_found; [exact Hs|].
    destruct rs as [|r0 rs]; [destruct deps; discriminate|].
    intros Hnil. apply app_eq_nil in Hnil. destruct Hnil. discriminate.
Qed.

Lemma store_dependencies_batch_witness :
  match snd (store_dependencies [Sample.numpy; Sample.scipy] (VInt 1)
               (fresh Sample.populated)) with
  | inl _ => False
  | inr None => False
  | inr (Some ids) => List.length ids = 2%nat
  end /\
  exists rows,
    List.length rows = 2%nat /\
    snd (get_dependencies (VInt 1)
           (fst (store_dependencies [Sample.numpy; Sample.scipy] (VInt 1)
                   (fresh Sample.populated)))) = inr rows.
Proof.
  destruct store_dependencies_batch as (_ & _ & Hany & Href & Hget).
  split.
  - pose proof (Hany _ _ Href (fresh Sample.populated) _
                  [Sample.numpy; Sample.scipy] (VInt 1) _ eq_refl eq_refl)
      as H.
    cbn in H. cbn. exact H.
  - destruct (Hget (fresh Sample.populated) _ [Sample.numpy; Sample.scipy]
                (VInt 1) _ eq_refl eq_refl) as (rows & Hlen & Hrows).
    exists rows. split; [exact Hlen|]. exact (f_equal snd Hrows).
Defined.

(** C4, as stated, fails: for two descriptors the driver does not receive
    one statement for both rows; the batch carries two statements. *)
Lemma store_dependencies_two_statements :
  ~ (exists stmt,
       w_calls (fst (store_dependencies [Sample.numpy; Sample.scipy] (VInt 1)
                       (fresh Sample.populated))) = [CallInsert stmt] \/
       w_calls (fst (store_dependencies [Sample.numpy; Sample.scipy] (VInt 1)
                       (fresh Sample.populated))) = [CallInsertMany [stmt]]).
Proof.
  intros (stmt & [H|H]); cbv in H; discriminate H.
Qed.

(** What the driver receives for the two descriptors, and the answer. *)
Example store_dependencies_of_two :
  store_dependencies [Sample.numpy; Sample.scipy] (VInt 1)
    (fresh Sample.populated)
  = (inserted
       (CallInsertMany
          [dependency_stmt (VInt 1) Sample.numpy;
           dependency_stmt (VInt 1) Sample.scipy])
       (fst (ref_insert_many
               [dependency_stmt (VInt 1) Sample.numpy;
                dependency_stmt (VInt 1) Sample.scipy] Sample.populated))
       (fresh Sample.populated),
     inr (Some [VInt 1; VInt 2])).
Proof. reflexivity. Qed.

(** A batch whose second statement cannot be executed stores nothing. *)
Example store_dependencies_fails_whole :
  let out := store_dependencies [Sample.numpy; Sample.untyped] (VInt 1)
               (fresh Sample.populated) in
  snd out = inl integrity /\ w_store (fst out) = Sample.populated.
Proof. split; reflexivity. Qed.

End Batch.

(** ** Which operations validate *)

Section Validated.

Import Reference.

Lemma dependency_insert_agree store id d d' (w : world store) :
  agree d d' -> dependency_insert id d w = dependency_insert id d' w.
Proof.
  intros H. unfold dependency_insert, bind, dict_item, dict_get.
  rewrite (H "type"), (H "name"), (H "source"), (H "local_source"),
    (H "version"); unfold read_keys; simpl; auto 6.
Qed.

Lemma dependency_inserts_agree store id deps deps' :
  Forall2 agree deps deps' ->
  forall stmts (w : world store),
    dependency_inserts id deps stmts w = dependency_inserts id deps' stmts w.
Proof.
  induction 1 as [|d d' deps deps' Hd _ IH]; intros stmts w; simpl.
  - reflexivity.
  - unfold bind. rewrite (dependency_insert_agree _ _ Hd).
    destruct (dependency_insert id d' w) as [w1 [e|stmt]]; auto.
Qed.

(** C9, as amended: the operations under [validate_kwargs_exist], which
    are [store_model] and the get operations that take criteria, fail with
    the validation error, the driver uncalled, when a supplied name is no
    declared column of their entity.  [store_deployment], [store_project]
    and [store_flow] take the fields of their signature and hand the
    insert to the driver whatever the arguments; [store_dependencies]
    reads the keys [type], [name], [source], [local_source] and [version]
    of each descriptor and nothing else of it.  None of these four
    validates. *)
Theorem validated_operations :
  (forall store (db : ModelDB store) (w : world store) kw k,
     In k (keys kw) ->
     (mem_string k (columns Model) = false ->
      store_model kw w = (w, inl (ValueError Model (undeclared Model kw))) /\
      get_model kw w = (w, inl (ValueError Model (undeclared Model kw)))) /\
     (mem_string k (columns Deployment) = false ->
      get_deployment kw w =
        (w, inl (ValueError Deployment (undeclared Deployment kw))) /\
      get_latest_deployment kw w =
        (w, inl (ValueError Deployment (undeclared Deployment kw)))) /\
     (mem_string k (columns Project) = false ->
      get_project kw w =
        (w, inl (ValueError Project (undeclared Project kw)))) /\
     (mem_string k (columns Flow) = false ->
      get_flow kw w = (w, inl (ValueError Flow (undeclared Flow kw)))) /\
     (mem_string k (columns FlowOfFlows) = false ->
      get_flow_of_flows kw w =
        (w, inl (ValueError FlowOfFlows (undeclared FlowOfFlows kw))))) /\
  (forall store (db : ModelDB store) (w : world store) a b c d e f g,
     store_deployment a b c d e f g w =
       (inserted (CallInsert (deployment_insert a b c d e f g))
          (fst (db_insert (deployment_insert a b c d e f g) (w_store w))) w,
        first_id
          (snd (db_insert (deployment_insert a b c d e f g) (w_store w)))) /\
     store_project a b w =
       (inserted (CallInsert (project_insert a b))
          (fst (db_insert (project_insert a b) (w_store w))) w,
        first_id (snd (db_insert (project_insert a b) (w_store w)))) /\
     store_flow a b c d w =
       (inserted (CallInsert (flow_insert a b c d))
          (fst (db_insert (flow_insert a b c d) (w_store w))) w,
        first_id (snd (db_insert (flow_insert a b c d) (w_store w))))) /\
  (forall store (db : ModelDB store) (w : world store) deps deps' id,
     Forall2 agree deps deps' ->
     store_dependencies deps id w = store_dependencies deps' id w).
Proof.
  split; [|split].
  - intros store db w kw k Hin.
    repeat match goal with |- _ /\ _ => split end; intros Hk;
      try split; apply validate_reject; eapply undeclared_In; eauto.
  - intros store db w a b c d e f g.
    repeat split;
      unfold store_deployment, store_project, store_flow, bind,
        model_db_insert; cbv zeta;
      fold (deployment_insert a b c d e f g); fold (project_insert a b);
      fold (flow_insert a b c d);
      match goal with
      | |- context [db_insert ?s ?st] =>
          destruct (db_insert s st) as [st' [err|[|i ids]]]; reflexivity
      end.
  - intros store db w deps deps' id H.
    unfold store_dependencies, bind.
    now rewrite (dependency_inserts_agree id H).
Qed.

Lemma validated_operations_witness :
  store_model [("bogus", VInt 0)] (fresh Sample.populated) =
    (fresh Sample.populated, inl (ValueError Model ["bogus"])) /\
  store_dependencies [Sample.annotated] (VInt 1) (fresh Sample.populated) =
    store_dependencies [Sample.numpy] (VInt 1) (fresh Sample.populated).
Proof.
  split.
  - apply (proj1 validated_operations tables reference_db
             (fresh Sample.populated) [("bogus", VInt 0)] "bogus").
    + simpl. auto.
    + reflexivity.
  - apply (proj2 (proj2 validated_operations)).
    constructor; [|constructor].
    intros k Hk. simpl in Hk.
    repeat (destruct Hk as [<-|Hk]; [reflexivity|]). destruct Hk.
Defined.

(** C9, as stated, fails: [store_dependencies] does not validate the
    fields of a descriptor against the columns of the dependency table
    before the insert.  A descriptor with a key that is no column is
    stored. *)
Lemma store_dependencies_does_not_validate :
  ~ (forall (w : world tables) deps id dep k,
       In dep deps -> In k (keys dep) ->
       mem_string k (columns DeploymentDependency) = false ->
       exists e, store_dependencies deps id w = (w, inl e)).
Proof.
  intros H.
  destruct (H (fresh Sample.populated) [Sample.annotated] (VInt 1)
              Sample.annotated "bogus") as [e He].
  - simpl. auto.
  - simpl. auto 6.
  - reflexivity.
  - cbv in He. discriminate He.
Qed.

(** The descriptor with the undeclared key is stored under identifier 1. *)
Example store_dependencies_annotated :
  snd (store_dependencies [Sample.annotated] (VInt 1)
         (fresh Sample.populated)) = inr (Some [VInt 1]).
Proof. reflexivity. Qed.

End Validated.

(** ** The local run backend *)

Section LocalRuns.

Import Local.

(** What [get_run] does, by the attribute of the backend object. *)
Lemma get_run_by_backend_attribute cwd self run_config file_service :
  get_run cwd self run_config file_service =
    match lookup_attribute (attributes self) "working_dir" with
    | None => inl (AttributeError "working_dir")
    | Some d =>
        if dir_exists file_service "local" d
        then inr (new_LocalRun cwd (env run_config) (working_dir run_config))
        else inl (FileNotFoundError d)
    end.
Proof.
  unfold get_run, getattr.
  destruct (lookup_attribute (attributes self) "working_dir") as [d|];
    [|reflexivity].
  now destruct (dir_exists file_service "local" d).
Qed.

(** C5: the check of [get_run] is on the working directory of the backend
    object, not on that of the run configuration.  For a run configuration
    whose working directory the file service reports as non-existent,
    [get_run] returns a run descriptor when the backend's own directory
    exists, and raises [AttributeError], no not-found error, when the
    backend carries no working directory; this in whatever directory the
    process runs. *)
Theorem get_run_checks_the_backend_directory :
  dir_exists Sample.file_service "local" (working_dir Sample.run_config)
    = false /\
  (forall cwd,
     get_run cwd Sample.backend Sample.run_config Sample.file_service =
       inr {| run_env := [("EPICS_CA_ADDR_LIST", "localhost")];
              run_working_dir := Some "/srv/missing" |}) /\
  (forall cwd,
     get_run cwd Sample.bare_backend Sample.run_config Sample.file_service =
       inl (AttributeError "working_dir")).
Proof. repeat split. Qed.

End LocalRuns.

(** ** The statements at the sample store *)

Section Witnesses.

Import Reference.

Lemma get_zero_rows_raises_not_found_witness :
  snd (get_model [("author", VStr "nobody")] (fresh Sample.populated)) =
    inl (ModelNotFoundError
           (criteria_query Model [("author", VStr "nobody")])) /\
  snd (get_deployment [("model_id", VInt 9)] (fresh Sample.populated)) =
    inl (DeploymentNotFoundError
           (criteria_query Deployment [("model_id", VInt 9)])) /\
  snd (get_latest_deployment [("model_id", VInt 9)] (fresh Sample.populated)) =
    inl (DeploymentNotFoundError (latest_query [("model_id", VInt 9)])) /\
  snd (get_project [("project_name", VStr "none")] (fresh Sample.populated)) =
    inl (ProjectNotFoundError
           (criteria_query Project [("project_name", VStr "none")])) /\
  snd (get_flow [("flow_id", VStr "none")] (fresh Sample.populated)) =
    inl (FlowNotFoundError (criteria_query Flow [("flow_id", VStr "none")])) /\
  snd (get_flow_of_flows [("id", VStr "none")] (fresh Sample.populated)) =
    inl (FlowOfFlowsNotFoundError
           (criteria_query FlowOfFlows [("id", VStr "none")])) /\
  snd (get_dependencies (VInt 1) (fresh Sample.populated)) =
    inl (DeploymentNotFoundError (dependencies_query (VInt 1))).
Proof.
  repeat match goal with |- _ /\ _ => split end.
  - destruct (get_zero_rows_raises_not_found (fresh Sample.populated)
                [("author", VStr "nobody")] VNone) as (H & _).
    now rewrite H.
  - destruct (get_zero_rows_raises_not_found (fresh Sample.populated)
                [("model_id", VInt 9)] VNone) as (_ & H & _).
    now rewrite H.
  - destruct (get_zero_rows_raises_not_found (fresh Sample.populated)
                [("model_id", VInt 9)] VNone) as (_ & _ & H & _).
    now rewrite H.
  - destruct (get_zero_rows_raises_not_found (fresh Sample.populated)
                [("project_name", VStr "none")] VNone) as (_ & _ & _ & H & _).
    now rewrite H.
  - destruct (get_zero_rows_raises_not_found (fresh Sample.populated)
                [("flow_id", VStr "none")] VNone)
      as (_ & _ & _ & _ & H & _).
    now rewrite H.
  - destruct (get_zero_rows_raises_not_found (fresh Sample.populated)
                [("id", VStr "none")] VNone)
      as (_ & _ & _ & _ & _ & H & _).
    now rewrite H.
  - destruct (get_zero_rows_raises_not_found (fresh Sample.populated)
                [] (VInt 1)) as (_ & _ & _ & _ & _ & _ & H).
    now rewrite H.
Defined.

Lemma undeclared_criterion_fails_before_query_witness :
  get_model [("bogus", VInt 0)] (fresh Sample.populated) =
    (fresh Sample.populated, inl (ValueError Model ["bogus"])) /\
  get_deployment [("bogus", VInt 0)] (fresh Sample.populated) =
    (fresh Sample.populated, inl (ValueError Deployment ["bogus"])) /\
  get_latest_deployment [("bogus", VInt 0)] (fresh Sample.populated) =
    (fresh Sample.populated, inl (ValueError Deployment ["bogus"])) /\
  get_project [("bogus", VInt 0)] (fresh Sample.populated) =
    (fresh Sample.populated, inl (ValueError Project ["bogus"])) /\
  get_flow [("bogus", VInt 0)] (fresh Sample.populated) =
    (fresh Sample.populated, inl (ValueError Flow ["bogus"])) /\
  get_flow_of_flows [("bogus", VInt 0)] (fresh Sample.populated) =
    (fresh Sample.populated, inl (ValueError FlowOfFlows ["bogus"])).
Proof.
  destruct (undeclared_criterion_fails_before_query (fresh Sample.populated)
              [("bogus", VInt 0)] "bogus" (or_introl eq_refl))
    as (H1 & H2 & H3 & H4 & H5).
  destruct (H2 eq_refl) as [H2a H2b].
  repeat match goal with |- _ /\ _ => split end.
  - exact (H1 eq_refl).
  - exact H2a.
  - exact H2b.
  - exact (H3 eq_refl).
  - exact (H4 eq_refl).
  - exact (H5 eq_refl).
Defined.

Lemma get_many_rows_warns_and_returns_first_witness :
  (exists msg,
     get_model [("author", VStr "ada")] (fresh Sample.populated) =
       (logged (Warning msg "model_id" (VInt 1))
          (called (CallSelect (criteria_query Model [("author", VStr "ada")]))
             (fresh Sample.populated)),
        inr (Sample.model 1 "first"))) /\
  (exists msg,
     get_deployment [("model_id", VInt 1)] (fresh Sample.populated) =
       (logged (Warning msg "deployment_id" (VInt 1))
          (called
             (CallSelect (criteria_query Deployment [("model_id", VInt 1)]))
             (fresh Sample.populated)),
        inr (Sample.deployment 1 1 10))) /\
  (exists msg,
     get_project [("description", VStr "runs")] (fresh Sample.populated) =
       (logged (Warning msg "name" (VStr "accelerator"))
          (called
             (CallSelect
                (criteria_query Project [("description", VStr "runs")]))
             (fresh Sample.populated)),
        inr (Sample.project "accelerator"))) /\
  (exists msg,
     get_flow [("deployment_id", VInt 1)] (fresh Sample.populated) =
       (logged (Warning msg "flow_id" (VStr "flow-a"))
          (called
             (CallSelect (criteria_query Flow [("deployment_id", VInt 1)]))
             (fresh Sample.populated)),
        inr (Sample.member "flow-a"))).
Proof.
  repeat match goal with |- _ /\ _ => split end.
  - destruct (get_many_rows_warns_and_returns_first (fresh Sample.populated)
                [("author", VStr "ada")]) as (H & _).
    exact (H (Sample.model 1 "first") (Sample.model 2 "second") []
             eq_refl eq_refl).
  - destruct (get_many_rows_warns_and_returns_first (fresh Sample.populated)
                [("model_id", VInt 1)]) as (_ & H & _).
    exact (H (Sample.deployment 1 1 10) (Sample.deployment 2 1 30)
             [Sample.deployment 3 1 20] eq_refl eq_refl).
  - destruct (get_many_rows_warns_and_returns_first (fresh Sample.populated)
                [("description", VStr "runs")]) as (_ & _ & H & _).
    exact (H (Sample.project "accelerator") (Sample.project "injector") []
             eq_refl eq_refl).
  - destruct (get_many_rows_warns_and_returns_first (fresh Sample.populated)
                [("deployment_id", VInt 1)]) as (_ & _ & _ & H).
    exact (H (Sample.member "flow-a") (Sample.member "flow-b") []
             eq_refl eq_refl).
Defined.

Lemma get_flow_of_flows_returns_members_witness :
  get_flow_of_flows [("id", VStr "composite")] (fresh Sample.populated) =
    (called
       (CallSelect (criteria_query FlowOfFlows [("id", VStr "composite")]))
       (fresh Sample.populated),
     inr (map flow [Sample.grouping "flow-a"; Sample.grouping "flow-b"])) /\
  List.length (map flow [Sample.grouping "flow-a"; Sample.grouping "flow-b"])
    = List.length [Sample.grouping "flow-a"; Sample.grouping "flow-b"].
Proof.
  apply (get_flow_of_flows_returns_members (fresh Sample.populated)
           [("id", VStr "composite")]).
  - reflexivity.
  - reflexivity.
  - discriminate.
Defined.

End Witnesses.

(** ** The reference driver and the service together *)

Section OnReference.

Import Reference.

(** When no row of the table matches the criteria, the reference driver
    answers a criteria query with the empty list. *)
Lemma reference_select_no_match E (kw : kwargs) (st : tables) :
  (forall r, In r (table E st) -> matches kw r = false) ->
  db_select (criteria_query E kw) st = inr [].
Proof.
  intros H. simpl. unfold ref_select, run_query. cbn.
  now rewrite (filter_none _ _ H).
Qed.

(** With no matching model in the store, [get_model] raises. *)
Lemma get_model_no_match (w : world tables) (kw : kwargs) :
  declared Model kw = true ->
  (forall r, In r (models (w_store w)) -> matches (E := Model) kw r = false) ->
  snd (get_model kw w) = inl (ModelNotFoundError (criteria_query Model kw)).
Proof.
  intros Hd Hnone. unfold get_model. rewrite (validate_pass _ _ _ Hd).
  cbv zeta. fold (criteria_query Model kw).
  now rewrite (select_then _ _ _ (reference_select_no_match Model kw _ Hnone)).
Qed.

(** A store operation is not read-only: the notion tells the get
    operations from the store operations. *)
Lemma store_model_not_read_only :
  ~ read_only
      (store_model
         (model_fields (VStr "ada") (VStr "slac") (VStr "lcls")
            (VStr "cu_hxr") (VStr "third"))).
Proof.
  intros H. destruct (H (fresh Sample.populated)) as [Hstore _].
  cbv in Hstore. discriminate Hstore.
Qed.

(** The third model of the same author, laboratory, facility and beampath
    is stored under identifier 3, and the [get_model] that follows returns
    the first of the three. *)
Example store_third_model_get_first :
  let stored :=
    store_model
      (model_fields (VStr "ada") (VStr "slac") (VStr "lcls") (VStr "cu_hxr")
         (VStr "third")) (fresh Sample.populated) in
  snd stored = inr (VInt 3) /\
  snd (get_model
         (model_criteria (VStr "ada") (VStr "slac") (VStr "lcls")
            (VStr "cu_hxr")) (fst stored))
  = inr (Sample.model 1 "first").
Proof. split; reflexivity. Qed.

End OnReference.

(** * Further properties of the service *)

(** ** The get operations, by the driver's answer *)

Section Answers.

Context {store : Type} {model_db : ModelDB store}.

(** A select followed by a continuation, by the driver's answer. *)
Lemma select_bind A E (q : query E) (k : list (row_of E) -> M store A) w :
  bind (model_db_select q) k w =
    match db_select q (w_store w) with
    | inl e => (called (CallSelect q) w, inl e)
    | inr rows => k rows (called (CallSelect q) w)
    end.
Proof.
  unfold bind, model_db_select.
  now destruct (db_select q (w_store w)).
Qed.

Ltac run_get Hd :=
  unfold get_model, get_deployment, get_latest_deployment, get_project,
    get_flow, get_flow_of_flows, get_dependencies;
  try rewrite (validate_pass _ _ _ Hd); cbv zeta;
  rewrite select_bind;
  unfold criteria_query, latest_query, dependencies_query in *.

(** With valid criteria every get operation makes one call on the driver,
    the select of its query, whatever the driver answers: an error, no
    row, one row or several. *)
Theorem get_operations_one_select (w : world store) (kw : kwargs)
  (deployment_id : value) :
  (declared Model kw = true ->
   w_calls (fst (get_model kw w)) =
     w_calls w ++ [CallSelect (criteria_query Model kw)]) /\
  (declared Deployment kw = true ->
   w_calls (fst (get_deployment kw w)) =
     w_calls w ++ [CallSelect (criteria_query Deployment kw)] /\
   w_calls (fst (get_latest_deployment kw w)) =
     w_calls w ++ [CallSelect (latest_query kw)]) /\
  (declared Project kw = true ->
   w_calls (fst (get_project kw w)) =
     w_calls w ++ [CallSelect (criteria_query Project kw)]) /\
  (declared Flow kw = true ->
   w_calls (fst (get_flow kw w)) =
     w_calls w ++ [CallSelect (criteria_query Flow kw)]) /\
  (declared FlowOfFlows kw = true ->
   w_calls (fst (get_flow_of_flows kw w)) =
     w_calls w ++ [CallSelect (criteria_query FlowOfFlows kw)]) /\
  w_calls (fst (get_dependencies deployment_id w)) =
    w_calls w ++ [CallSelect (dependencies_query deployment_id)].
Proof.
  repeat match goal with |- _ /\ _ => split end.
  all: try (intros Hd; try split; run_get Hd;
            match goal with
            | |- context [db_select ?q ?st] =>
                destruct (db_select q st) as [e|[|r1 [|r2 rest]]]; reflexivity
            end).
  unfold get_dependencies. cbv zeta. rewrite select_bind.
  match goal with
  | |- context [db_select ?q ?st] =>
      destruct (db_select q st) as [e|[|r1 rest]]; reflexivity
  end.
Qed.

(** An error of the driver's select leaves every get operation as that
    error: it is not caught, and not turned into a not-found error. *)
Theorem get_operations_propagate_driver_error (w : world store) (kw : kwargs)
  (deployment_id : value) (e : error) :
  (declared Model kw = true ->
   db_select (criteria_query Model kw) (w_store w) = inl e ->
   get_model kw w = (called (CallSelect (criteria_query Model kw)) w, inl e)) /\
  (declared Deployment kw = true ->
   db_select (criteria_query Deployment kw) (w_store w) = inl e ->
   get_deployment kw w =
     (called (CallSelect (criteria_query Deployment kw)) w, inl e)) /\
  (declared Deployment kw = true ->
   db_select (latest_query kw) (w_store w) = inl e ->
   get_latest_deployment kw w =
     (called (CallSelect (latest_query kw)) w, inl e)) /\
  (declared Project kw = true ->
   db_select (criteria_query Project kw) (w_store w) = inl e ->
   get_project kw w =
     (called (CallSelect (criteria_query Project kw)) w, inl e)) /\
  (declared Flow kw = true ->
   db_select (criteria_query Flow kw) (w_store w) = inl e ->
   get_flow kw w = (called (CallSelect (criteria_query Flow kw)) w, inl e)) /\
  (declared FlowOfFlows kw = true ->
   db_select (criteria_query FlowOfFlows kw) (w_store w) = inl e ->
   get_flow_of_flows kw w =
     (called (CallSelect (criteria_query FlowOfFlows kw)) w, inl e)) /\
  (db_select (dependencies_query deployment_id) (w_store w) = inl e ->
   get_dependencies deployment_id w =
     (called (CallSelect (dependencies_query deployment_id)) w, inl e)).
Proof.
  repeat match goal with |- _ /\ _ => split end.
  all: try (intros Hd Hs; run_get Hd; now rewrite Hs).
  intros Hs. run_get Hs. now rewrite Hs.
Qed.

(** When the driver returns exactly one row, [get_model], [get_deployment],
    [get_project] and [get_flow] return it and log nothing. *)
Theorem get_single_row_silent (w : world store) (kw : kwargs) :
  (forall r,
     declared Model kw = true ->
     db_select (criteria_query Model kw) (w_store w) = inr [r] ->
     get_model kw w =
       (called (CallSelect (criteria_query Model kw)) w, inr r)) /\
  (forall r,
     declared Deployment kw = true ->
     db_select (criteria_query Deployment kw) (w_store w) = inr [r] ->
     get_deployment kw w =
       (called (CallSelect (criteria_query Deployment kw)) w, inr r)) /\
  (forall r,
     declared Project kw = true ->
     db_select (criteria_query Project kw) (w_store w) = inr [r] ->
     get_project kw w =
       (called (CallSelect (criteria_query Project kw)) w, inr r)) /\
  (forall r,
     declared Flow kw = true ->
     db_select (criteria_query Flow kw) (w_store w) = inr [r] ->
     get_flow kw w = (called (CallSelect (criteria_query Flow kw)) w, inr r)).
Proof.
  repeat match goal with |- _ /\ _ => split end;
    intros r Hd Hs; run_get Hd; now rewrite Hs.
Qed.

(** [get_model], [get_deployment], [get_project] and [get_flow] log only
    when the driver returned several rows: otherwise the log is as it
    was. *)
Theorem warning_only_for_several_rows (w : world store) (kw : kwargs) :
  (w_log (fst (get_model kw w)) = w_log w \/
   exists r1 r2 rest,
     db_select (criteria_query Model kw) (w_store w) = inr (r1 :: r2 :: rest)) /\
  (w_log (fst (get_deployment kw w)) = w_log w \/
   exists r1 r2 rest,
     db_select (criteria_query Deployment kw) (w_store w)
       = inr (r1 :: r2 :: rest)) /\
  (w_log (fst (get_project kw w)) = w_log w \/
   exists r1 r2 rest,
     db_select (criteria_query Project kw) (w_store w)
       = inr (r1 :: r2 :: rest)) /\
  (w_log (fst (get_flow kw w)) = w_log w \/
   exists r1 r2 rest,
     db_select (criteria_query Flow kw) (w_store w) = inr (r1 :: r2 :: rest)).
Proof.
  repeat match goal with |- _ /\ _ => split end;
    unfold get_model, get_deployment, get_project, get_flow,
      validate_kwargs_exist;
    (destruct (filter _ (keys kw)); [|left; reflexivity]);
    cbv zeta;
    try fold (criteria_query Model kw); try fold (criteria_query Deployment kw);
    try fold (criteria_query Project kw); try fold (criteria_query Flow kw);
    rewrite select_bind;
    match goal with
    | |- context [db_select ?q ?st] =>
        destruct (db_select q st) as [e|[|r1 [|r2 rest]]];
          [left; reflexivity | left; reflexivity | left; reflexivity
          | right; eauto]
    end.
Qed.

(** [get_latest_deployment], [get_flow_of_flows] and [get_dependencies]
    never log, however many rows the driver returns. *)
Theorem quiet_get_operations (w : world store) (kw : kwargs)
  (deployment_id : value) :
  w_log (fst (get_latest_deployment kw w)) = w_log w /\
  w_log (fst (get_flow_of_flows kw w)) = w_log w /\
  w_log (fst (get_dependencies deployment_id w)) = w_log w.
Proof.
  repeat match goal with |- _ /\ _ => split end;
    unfold get_latest_deployment, get_flow_of_flows, get_dependencies,
      validate_kwargs_exist;
    try (destruct (filter _ (keys kw)); [|reflexivity]);
    cbv zeta; rewrite select_bind;
    match goal with
    | |- context [db_select ?q ?st] =>
        destruct (db_select q st) as [e|[|r1 rest]]; reflexivity
    end.
Qed.

(** For a non-empty answer of the driver, [get_latest_deployment] returns
    its first row, and [get_dependencies] returns all of its rows, in the
    driver's order. *)
Theorem non_empty_answers (w : world store) (kw : kwargs)
  (deployment_id : value) :
  (forall r rest,
     declared Deployment kw = true ->
     db_select (latest_query kw) (w_store w) = inr (r :: rest) ->
     get_latest_deployment kw w =
       (called (CallSelect (latest_query kw)) w, inr r)) /\
  (forall r rest,
     db_select (dependencies_query deployment_id) (w_store w)
       = inr (r :: rest) ->
     get_dependencies deployment_id w =
       (called (CallSelect (dependencies_query deployment_id)) w,
        inr (r :: rest))).
Proof.
  split.
  - intros r rest Hd Hs. run_get Hd. now rewrite Hs.
  - intros r rest Hs. run_get Hs. now rewrite Hs.
Qed.

End Answers.

(** ** The store operations *)

Section Stores.

Context {store : Type} {model_db : ModelDB store}.

Lemma mem_string_In k l : mem_string k l = true <-> In k l.
Proof.
  unfold mem_string. rewrite existsb_exists. split.
  - intros (x & Hx & He). apply String.eqb_eq in He. now subst.
  - intros H. exists k. split; [exact H | apply String.eqb_refl].
Qed.

Lemma dict_find_None (d : dict) k :
  dict_find d k = None <-> ~ In k (keys d).
Proof.
  induction d as [|[k' v] d IH]; simpl.
  - tauto.
  - destruct (String.eqb_spec k' k) as [->|Hne].
    + split; [discriminate | intros H; exfalso; auto].
    + rewrite IH. intuition.
Qed.

Lemma missing_key_well_formed dep :
  missing_key dep = None <-> well_formed dep = true.
Proof.
  unfold missing_key, well_formed, required_keys. simpl.
  destruct (mem_string "type" (keys dep)); simpl; [|split; discriminate].
  destruct (mem_string "name" (keys dep)); simpl; [|split; discriminate].
  destruct (mem_string "source" (keys dep)); simpl; [|split; discriminate].
  destruct (mem_string "version" (keys dep)); simpl; [|split; discriminate].
  tauto.
Qed.

Lemma dependency_insert_missing id dep k (w : world store) :
  missing_key dep = Some k ->
  dependency_insert id dep w = (w, inl (KeyError k)).
Proof.
  unfold missing_key, required_keys. simpl.
  unfold dependency_insert, bind.
  destruct (mem_string "type" (keys dep)) eqn:Ht; simpl.
  2:{ intros H. inversion H; subst. now rewrite (dict_item_absent _ _ _ Ht). }
  rewrite (dict_item_present _ _ _ Ht). cbv zeta.
  destruct (mem_string "name" (keys dep)) eqn:Hn; simpl.
  2:{ intros H. inversion H; subst. now rewrite (dict_item_absent _ _ _ Hn). }
  rewrite (dict_item_present _ _ _ Hn).
  destruct (mem_string "source" (keys dep)) eqn:Hs; simpl.
  2:{ intros H. inversion H; subst. now rewrite (dict_item_absent _ _ _ Hs). }
  rewrite (dict_item_present _ _ _ Hs).
  destruct (mem_string "version" (keys dep)) eqn:Hv; simpl.
  2:{ intros H. inversion H; subst. now rewrite (dict_item_absent _ _ _ Hv). }
  discriminate.
Qed.

Lemma dependency_inserts_missing id deps k : forall stmts (w : world store),
  first_missing_key deps = Some k ->
  dependency_inserts id deps stmts w = (w, inl (KeyError k)).
Proof.
  induction deps as [|dep deps IH]; simpl; intros stmts w H; [discriminate|].
  unfold bind. destruct (missing_key dep) as [k'|] eqn:Hm.
  - inversion H; subst. now rewrite (dependency_insert_missing _ _ _ Hm).
  - apply missing_key_well_formed in Hm.
    rewrite (dependency_insert_well_formed _ _ _ Hm). now apply IH.
Qed.

(** [store_dependencies] reads the descriptors in order, and of each the
    keys [type], [name], [source] and [version] in this order: the first
    key it does not find is the [KeyError] of the call, and the driver is
    not called, however many complete descriptors came before. *)
Theorem store_dependencies_first_missing_key (w : world store) deps id k :
  first_missing_key deps = Some k ->
  store_dependencies deps id w = (w, inl (KeyError k)).
Proof.
  intros H. unfold store_dependencies, bind.
  now rewrite (dependency_inserts_missing id deps [] w H).
Qed.

(** The key [local_source] is optional: a descriptor that has the required
    keys and no [local_source] gives a statement, which binds the column
    [local_source] to [None]. *)
Theorem dependency_without_local_source (w : world store) deps id :
  forallb well_formed deps = true ->
  (forall dep, In dep deps -> ~ In "local_source" (keys dep)) ->
  exists stmts,
    w_calls (fst (store_dependencies deps id w)) =
      w_calls w ++ [CallInsertMany stmts] /\
    List.length stmts = List.length deps /\
    forall stmt, In stmt stmts ->
      binding (i_values stmt) "local_source" = Some (Lit VNone).
Proof.
  intros Hwf Hno. exists (map (dependency_stmt id) deps).
  rewrite (store_dependencies_well_formed _ _ _ Hwf). simpl.
  split; [reflexivity|]. split; [apply length_map|].
  intros stmt Hin. apply in_map_iff in Hin. destruct Hin as (dep & <- & Hdep).
  cbn. unfold dict_get.
  now rewrite (proj2 (dict_find_None dep "local_source") (Hno dep Hdep)).
Qed.

Lemma writes_once_store_model_def a l f b d :
  writes_once (store_model_def a l f b d).
Proof.
  intros w. right. unfold store_model_def, bind, model_db_insert.
  cbv zeta.
  match goal with
  | |- context [db_insert ?s ?st] =>
      destruct (db_insert s st) as [st' [e|[|i ids]]];
        exists (CallInsert s), st'; split; reflexivity
  end.
Qed.

(** No store operation logs, selects, or calls the driver twice: each
    either leaves the world as it was (a rejected [store_model], a
    [store_dependencies] with an incomplete descriptor) or sends the
    driver exactly one insert. *)
Theorem store_operations_write_once (kw : kwargs) (a b c d e f g : value)
  (deps : list dict) :
  writes_once (store_model kw) /\
  writes_once (store_deployment a b c d e f g) /\
  writes_once (store_project a b) /\
  writes_once (store_flow a b c d) /\
  writes_once (store_dependencies deps a).
Proof.
  repeat match goal with |- _ /\ _ => split end.
  - intros w. unfold store_model, validate_kwargs_exist.
    destruct (filter _ (keys kw)); [|left; reflexivity].
    unfold check_keywords, param.
    destruct (filter _ (keys kw)); [|left; reflexivity].
    unfold bind at 1. cbn [ret].
    repeat match goal with
    | |- context [dict_find kw ?p] =>
        destruct (dict_find kw p); [|left; reflexivity];
        unfold bind at 1; cbn [ret]
    end.
    apply writes_once_store_model_def.
  - intros w. right. unfold store_deployment, bind, model_db_insert. cbv zeta.
    match goal with
    | |- context [db_insert ?s ?st] =>
        destruct (db_insert s st) as [st' [err|[|i ids]]];
          exists (CallInsert s), st'; split; reflexivity
    end.
  - intros w. right. unfold store_project, bind, model_db_insert. cbv zeta.
    match goal with
    | |- context [db_insert ?s ?st] =>
        destruct (db_insert s st) as [st' [err|[|i ids]]];
          exists (CallInsert s), st'; split; reflexivity
    end.
  - intros w. right. unfold store_flow, bind, model_db_insert. cbv zeta.
    match goal with
    | |- context [db_insert ?s ?st] =>
        destruct (db_insert s st) as [st' [err|[|i ids]]];
          exists (CallInsert s), st'; split; reflexivity
    end.
  - intros w. destruct (forallb well_formed deps) eqn:H.
    + right. rewrite (store_dependencies_well_formed _ _ _ H).
      eexists. eexists. split; [|reflexivity]. reflexivity.
    + left. destruct (store_dependencies_ill_formed deps a w H) as [k Hk].
      now rewrite Hk.
Qed.

End Stores.

(** ** The keywords of [store_model] *)

Section Keywords.

Context {store : Type} {model_db : ModelDB store}.

Lemma model_params_declared k :
  In k model_params -> mem_string k (columns Model) = true.
Proof.
  unfold model_params. simpl. intros H.
  repeat (destruct H as [<-|H]; [reflexivity|]). destruct H.
Qed.

(** Keywords are bound by name: a call that supplies the five fields, in
    any order, is the call that supplies them in the order of the
    signature. *)
Theorem store_model_binds_by_name (w : world store) (kw : kwargs)
  (a l f b d : value) :
  (forall k, In k (keys kw) -> In k model_params) ->
  dict_find kw "author" = Some a ->
  dict_find kw "laboratory" = Some l ->
  dict_find kw "facility" = Some f ->
  dict_find kw "beampath" = Some b ->
  dict_find kw "description" = Some d ->
  store_model kw w = store_model (model_fields a l f b d) w.
Proof.
  intros Hkeys Ha Hl Hf Hb Hd.
  rewrite store_model_with_fields.
  unfold store_model, validate_kwargs_exist.
  rewrite filter_none.
  2:{ intros k Hk. now rewrite (model_params_declared (Hkeys k Hk)). }
  unfold check_keywords. rewrite filter_none.
  2:{ intros k Hk. fold model_params.
      now rewrite (proj2 (mem_string_In k model_params) (Hkeys k Hk)). }
  unfold param. rewrite Ha, Hl, Hf, Hb, Hd.
  unfold bind at 1 2 3 4 5 6. cbn [ret].
  unfold store_model_def, bind, model_db_insert. cbv zeta.
  fold (model_insert a l f b d).
  destruct (db_insert (model_insert a l f b d) (w_store w))
    as [st [e|[|id rest]]]; reflexivity.
Qed.

(** A call of [store_model] whose keywords are declared columns but not
    exactly the five parameters (one is missing, or [model_id] is given) is
    a [TypeError], and the driver is not called. *)
Theorem store_model_wrong_keywords (w : world store) (kw : kwargs) :
  declared Model kw = true ->
  (exists k, In k (keys kw) /\ ~ In k model_params) \/
  (exists p, In p model_params /\ ~ In p (keys kw)) ->
  exists msg, store_model kw w = (w, inl (TypeError msg)).
Proof.
  intros Hd Hwrong.
  unfold store_model. rewrite (validate_pass _ _ _ Hd).
  unfold check_keywords. fold model_params.
  destruct (filter (fun k => negb (mem_string k model_params)) (keys kw))
    as [|k0 ks] eqn:Hf.
  2:{ unfold bind, raise. eauto. }
  assert (forall k, In k (keys kw) -> In k model_params) as Hsub.
  { intros k Hk. apply mem_string_In.
    destruct (mem_string k model_params) eqn:E; [reflexivity|].
    assert (In k []) as Hin; [|destruct Hin].
    rewrite <- Hf. apply filter_In. rewrite E. auto. }
  destruct Hwrong as [(k & Hk & Hnot)|(p & Hp & Hmiss)]; [now elim Hnot; auto|].
  apply dict_find_None in Hmiss.
  unfold bind at 1. cbn [ret]. unfold param.
  unfold model_params in Hp. simpl in Hp.
  repeat match goal with
  | |- context [dict_find kw ?q] =>
      destruct (dict_find kw q) eqn:?; unfold bind at 1; cbn [ret raise];
      [|eauto]
  end.
  exfalso.
  repeat (destruct Hp as [<-|Hp]; [congruence|]). destruct Hp.
Qed.

End Keywords.

(** ** The local run backend, further *)

Section LocalFurther.

Import Local.


(** [get_run] consults the file service in the namespace [local] only, and
    on the directory of the backend only: two file services that agree
    there give the same outcome. *)
Theorem get_run_local_namespace_only cwd self run_config fs fs' :
  (forall d,
     lookup_attribute (attributes self) "working_dir" = Some d ->
     dir_exists fs "local" d = dir_exists fs' "local" d) ->
  get_run cwd self run_config fs = get_run cwd self run_config fs'.
Proof.
  intros H. rewrite !get_run_by_backend_attribute.
  destruct (lookup_attribute (attributes self) "working_dir") as [d|];
    [|reflexivity].
  now rewrite (H d eq_refl).
Qed.


End LocalFurther.

(** ** The further properties at the sample store *)

Section FurtherWitnesses.

Import Reference.

Lemma get_operations_one_select_witness :
  w_calls (fst (get_model [("author", VStr "ada")] (fresh Sample.populated))) =
    [CallSelect (criteria_query Model [("author", VStr "ada")])] /\
  w_calls (fst (get_latest_deployment [("model_id", VInt 9)]
                  (fresh Sample.populated))) =
    [CallSelect (latest_query [("model_id", VInt 9)])] /\
  w_calls (fst (get_flow_of_flows [("id", VStr "composite")]
                  (fresh Sample.populated))) =
    [CallSelect (criteria_query FlowOfFlows [("id", VStr "composite")])].
Proof.
  repeat match goal with |- _ /\ _ => split end.
  - destruct (get_operations_one_select (fresh Sample.populated)
                [("author", VStr "ada")] VNone) as (H & _).
    exact (H eq_refl).
  - destruct (get_operations_one_select (fresh Sample.populated)
                [("model_id", VInt 9)] VNone) as (_ & H & _).
    exact (proj2 (H eq_refl)).
  - destruct (get_operations_one_select (fresh Sample.populated)
                [("id", VStr "composite")] VNone)
      as (_ & _ & _ & _ & H & _).
    exact (H eq_refl).
Defined.

Lemma get_operations_propagate_driver_error_witness :
  @get_model unit Sample.unreachable [("author", VStr "ada")] (fresh tt) =
    (called (CallSelect (criteria_query Model [("author", VStr "ada")]))
       (fresh tt), inl Sample.down) /\
  @get_dependencies unit Sample.unreachable (VInt 1) (fresh tt) =
    (called (CallSelect (dependencies_query (VInt 1))) (fresh tt),
     inl Sample.down).
Proof.
  destruct (@get_operations_propagate_driver_error unit Sample.unreachable
              (fresh tt) [("author", VStr "ada")] (VInt 1) Sample.down)
    as (H1 & _ & _ & _ & _ & _ & H7).
  split; [exact (H1 eq_refl eq_refl) | exact (H7 eq_refl)].
Defined.

Lemma get_single_row_silent_witness :
  get_model [("description", VStr "second")] (fresh Sample.populated) =
    (called
       (CallSelect (criteria_query Model [("description", VStr "second")]))
       (fresh Sample.populated), inr (Sample.model 2 "second")) /\
  get_flow [("flow_id", VStr "flow-b")] (fresh Sample.populated) =
    (called (CallSelect (criteria_query Flow [("flow_id", VStr "flow-b")]))
       (fresh Sample.populated), inr (Sample.member "flow-b")).
Proof.
  split.
  - destruct (get_single_row_silent (fresh Sample.populated)
                [("description", VStr "second")]) as (H & _).
    exact (H (Sample.model 2 "second") eq_refl eq_refl).
  - destruct (get_single_row_silent (fresh Sample.populated)
                [("flow_id", VStr "flow-b")]) as (_ & _ & _ & H).
    exact (H (Sample.member "flow-b") eq_refl eq_refl).
Defined.

Lemma non_empty_answers_witness :
  get_latest_deployment [("model_id", VInt 1)] (fresh Sample.populated) =
    (called (CallSelect (latest_query [("model_id", VInt 1)]))
       (fresh Sample.populated), inr (Sample.deployment 2 1 30)) /\
  get_dependencies (VInt 1) (fresh Sample.with_dependency) =
    (called (CallSelect (dependencies_query (VInt 1)))
       (fresh Sample.with_dependency), inr [Sample.dependency]).
Proof.
  split.
  - exact (proj1 (non_empty_answers (fresh Sample.populated)
                    [("model_id", VInt 1)] VNone)
             (Sample.deployment 2 1 30)
             [Sample.deployment 3 1 20; Sample.deployment 1 1 10]
             eq_refl eq_refl).
  - exact (proj2 (non_empty_answers (fresh Sample.with_dependency) [] (VInt 1))
             Sample.dependency [] eq_refl).
Defined.

Lemma store_dependencies_first_missing_key_witness :
  store_dependencies [Sample.numpy; Sample.incomplete; Sample.untyped] (VInt 1)
    (fresh Sample.populated) =
    (fresh Sample.populated, inl (KeyError "source")).
Proof.
  apply store_dependencies_first_missing_key. reflexivity.
Defined.

Lemma dependency_without_local_source_witness :
  exists stmts,
    w_calls (fst (store_dependencies [Sample.numpy] (VInt 1)
                    (fresh Sample.populated))) =
      w_calls (fresh Sample.populated) ++ [CallInsertMany stmts] /\
    List.length stmts = List.length [Sample.numpy] /\
    forall stmt, In stmt stmts ->
      binding (i_values stmt) "local_source" = Some (Lit VNone).
Proof.
  apply dependency_without_local_source.
  - reflexivity.
  - intros dep [<-|[]]. simpl. intros H.
    repeat (destruct H as [H|H]; [discriminate H|]). exact H.
Defined.

Lemma store_model_binds_by_name_witness :
  store_model Sample.shuffled (fresh Sample.populated) =
    store_model
      (model_fields (VStr "ada") (VStr "slac") (VStr "lcls") (VStr "cu_hxr")
         (VStr "third")) (fresh Sample.populated).
Proof.
  apply store_model_binds_by_name; try reflexivity.
  intros k H. simpl in H. unfold model_params. simpl. tauto.
Defined.

Lemma store_model_wrong_keywords_witness :
  (exists msg,
     store_model [("author", VStr "ada"); ("model_id", VInt 7)]
       (fresh Sample.populated) = (fresh Sample.populated, inl (TypeError msg))) /\
  (exists msg,
     store_model [("author", VStr "ada")] (fresh Sample.populated) =
       (fresh Sample.populated, inl (TypeError msg))).
Proof.
  split.
  - apply store_model_wrong_keywords; [reflexivity|].
    left. exists "model_id". split; [simpl; auto|].
    unfold model_params. simpl. intros H.
    repeat (destruct H as [H|H]; [discriminate H|]). exact H.
  - apply store_model_wrong_keywords; [reflexivity|].
    right. exists "description". split; [unfold model_params; simpl; auto 6|].
    simpl. intros [H|[]]. discriminate H.
Defined.


Lemma get_run_local_namespace_only_witness :
  Local.get_run "/" Sample.backend Sample.run_config Sample.file_service =
  Local.get_run "/" Sample.backend Sample.run_config Sample.open_file_service.
Proof.
  apply get_run_local_namespace_only.
  intros d H. inversion H; subst. reflexivity.
Defined.


End FurtherWitnesses.
